(** * The daily weather forecast calendar ([integrations/weather.py])

    A shallow embedding of [get_weather_emoji] and of
    [DailyWeatherForecastCalendar.fetch_events], followed by the properties
    the specification states about them.

    Conventions of the embedding:
    - a decoded JSON document is a value of [json]; a Python [dict] with
      string keys is an association list read by first match;
    - Python numbers ([int], [float], [bool] in numeric position) are exact
      rationals: the rounding of binary floating point is not represented;
    - a Python [str] is the sequence of its UTF-8 bytes; [lower], [strip]
      and [capitalize] act on the ASCII range;
    - a [datetime.date] is its day number counted from 1970-01-01;
    - an exception is a value of [exn]; code that may raise returns a
      [result]; the outbound HTTP calls are threaded through the monad [M],
      which records every request that is issued. *)

From Stdlib Require Import ZArith QArith Qround Lqa String Ascii.
From stdpp Require Import gmap strings list sorting pretty.

Set Warnings "-register-all".

Local Open Scope string_scope.
Local Open Scope list_scope.
Local Open Scope Z_scope.

(** ** JSON values and Python exceptions *)

Inductive json :=
| JNull
| JBool (b : bool)
| JInt (z : Z)
| JFloat (q : Q)
| JStr (s : string)
| JList (l : list json)
| JDict (d : list (string * json)).

(** Exceptions raised by the interpreter and its libraries; the operands are
    kept, the message text is given by [str_exc] below. *)
Inductive py_error :=
| TypeError (op : string) (args : list json)
| ValueError (op : string) (args : list json)
| OverflowError (op : string) (args : list json)
| AttributeError (obj : json) (attr : string)
| KeyError (key : json)
| IndexError (obj : json).

Inductive exn :=
| HTTPException (status_code : Z) (detail : json)
| RequestException (msg : string)
| PyError (e : py_error).

Definition result (A : Type) : Type := (exn + A)%type.

Definition ret {A} (a : A) : result A := inr a.
Definition raise {A} (e : exn) : result A := inl e.
Definition bind {A B} (m : result A) (k : A -> result B) : result B :=
  match m with
  | inl e => inl e
  | inr a => k a
  end.

Notation "x <- m ;; k" := (bind m (fun x => k))
  (at level 100, m at next level, right associativity).
Notation "m ;;; k" := (bind m (fun _ => k))
  (at level 100, right associativity).

Fixpoint foldM {A B} (f : B -> A -> result B) (l : list A) (b : B) : result B :=
  match l with
  | [] => ret b
  | a :: l' => b' <- f b a ;; foldM f l' b'
  end.

Fixpoint mapM {A B} (f : A -> result B) (l : list A) : result (list B) :=
  match l with
  | [] => ret []
  | a :: l' => b <- f a ;; bs <- mapM f l' ;; ret (b :: bs)
  end.

(** ** Strings *)

Module Str.

Definition code (c : ascii) : Z := Z.of_N (N_of_ascii c).

(** ASCII characters for which [str.isspace] holds. *)
Definition is_space (c : ascii) : bool :=
  let n := code c in
  ((9 <=? n) && (n <=? 13)) || ((28 <=? n) && (n <=? 32)).

Definition is_upper (c : ascii) : bool := (65 <=? code c) && (code c <=? 90).
Definition is_lower (c : ascii) : bool := (97 <=? code c) && (code c <=? 122).
Definition is_digit (c : ascii) : bool := (48 <=? code c) && (code c <=? 57).

Definition lower_char (c : ascii) : ascii :=
  if is_upper c then ascii_of_N (N_of_ascii c + 32) else c.
Definition upper_char (c : ascii) : ascii :=
  if is_lower c then ascii_of_N (N_of_ascii c - 32) else c.

Fixpoint lower (s : string) : string :=
  match s with
  | EmptyString => EmptyString
  | String c s' => String (lower_char c) (lower s')
  end.

Definition capitalize (s : string) : string :=
  match s with
  | EmptyString => EmptyString
  | String c s' => String (upper_char c) (lower s')
  end.

Fixpoint lstrip (s : string) : string :=
  match s with
  | EmptyString => EmptyString
  | String c s' => if is_space c then lstrip s' else s
  end.

Fixpoint rstrip (s : string) : string :=
  match s with
  | EmptyString => EmptyString
  | String c s' =>
      match rstrip s' with
      | EmptyString => if is_space c then EmptyString else String c EmptyString
      | t => String c t
      end
  end.

Definition strip (s : string) : string := rstrip (lstrip s).

(** [sub in s] *)
Fixpoint contains (sub s : string) : bool :=
  String.prefix sub s ||
  match s with
  | EmptyString => false
  | String _ s' => contains sub s'
  end.

(** [sep.join(parts)] *)
Fixpoint join (sep : string) (parts : list string) : string :=
  match parts with
  | [] => ""
  | [p] => p
  | p :: ps => p +:+ sep +:+ join sep ps
  end.

(** A byte that continues a UTF-8 sequence. *)
Definition is_continuation (c : ascii) : bool :=
  (128 <=? code c) && (code c <=? 191).

Fixpoint continuation_run (s : string) : string :=
  match s with
  | EmptyString => EmptyString
  | String c s' =>
      if is_continuation c then String c (continuation_run s') else EmptyString
  end.

Fixpoint drop_continuation (s : string) : string :=
  match s with
  | EmptyString => EmptyString
  | String c s' => if is_continuation c then drop_continuation s' else s
  end.

(** The characters of a string, one string per code point. *)
Fixpoint chars_fuel (fuel : nat) (s : string) : list string :=
  match fuel, s with
  | S fuel', String c s' =>
      String c (continuation_run s') :: chars_fuel fuel' (drop_continuation s')
  | _, _ => []
  end.
Definition chars (s : string) : list string := chars_fuel (String.length s) s.

(** [len(s)] *)
Definition len (s : string) : Z := Z.of_nat (length (chars s)).

End Str.

(** ** Python built-ins on JSON values *)

Module Py.

Fixpoint dict_get (d : list (string * json)) (k : string) : option json :=
  match d with
  | [] => None
  | (k', v) :: d' => if String.eqb k' k then Some v else dict_get d' k
  end.

(** [obj.get(key, dflt)] *)
Definition get (obj : json) (key : string) (dflt : json) : result json :=
  match obj with
  | JDict d => ret (default dflt (dict_get d key))
  | _ => raise (PyError (AttributeError obj "get"))
  end.

(** [obj[key]] for a string key *)
Definition getitem (obj : json) (key : string) : result json :=
  match obj with
  | JDict d =>
      match dict_get d key with
      | Some v => ret v
      | None => raise (PyError (KeyError (JStr key)))
      end
  | _ => raise (PyError (TypeError "getitem" [obj; JStr key]))
  end.

(** [obj[0]] *)
Definition first (obj : json) : result json :=
  match obj with
  | JList (x :: _) => ret x
  | JList [] => raise (PyError (IndexError obj))
  | JStr s =>
      match Str.chars s with
      | c :: _ => ret (JStr c)
      | [] => raise (PyError (IndexError obj))
      end
  | JDict _ => raise (PyError (KeyError (JInt 0)))
  | _ => raise (PyError (TypeError "getitem" [obj; JInt 0]))
  end.

(** The numeric value of an [int], [float] or [bool]. *)
Definition as_number (v : json) : option Q :=
  match v with
  | JInt z => Some (inject_Z z)
  | JFloat q => Some q
  | JBool b => Some (if b then 1%Q else 0%Q)
  | _ => None
  end.

(** [v == s] for a string literal [s] *)
Definition eq_str (v : json) (s : string) : bool :=
  match v with
  | JStr t => String.eqb t s
  | _ => false
  end.

(** [v == 0] *)
Definition eq_zero (v : json) : bool :=
  match as_number v with
  | Some q => Qeq_bool q 0
  | None => false
  end.

(** [bool(v)] *)
Definition truthy (v : json) : bool :=
  match v with
  | JNull => false
  | JBool b => b
  | JInt z => negb (z =? 0)
  | JFloat q => negb (Qeq_bool q 0)
  | JStr s => negb (String.eqb s "")
  | JList l => match l with [] => false | _ => true end
  | JDict d => match d with [] => false | _ => true end
  end.

(** [len(v)] *)
Definition len (v : json) : result Z :=
  match v with
  | JStr s => ret (Str.len s)
  | JList l => ret (Z.of_nat (length l))
  | JDict d => ret (Z.of_nat (length d))
  | _ => raise (PyError (TypeError "len" [v]))
  end.

(** [key in v] for a string [key] *)
Definition contains (key : string) (v : json) : result bool :=
  match v with
  | JDict d => ret (bool_decide (is_Some (dict_get d key)))
  | JList l => ret (existsb (fun x => eq_str x key) l)
  | JStr s => ret (Str.contains key s)
  | _ => raise (PyError (TypeError "in" [JStr key; v]))
  end.

(** The items a [for] loop over [v] visits. *)
Definition iter (v : json) : result (list json) :=
  match v with
  | JList l => ret l
  | JDict d => ret (map (fun kv => JStr (fst kv)) d)
  | JStr s => ret (map JStr (Str.chars s))
  | _ => raise (PyError (TypeError "iter" [v]))
  end.

(** [int(q)] on a number: truncation toward zero. *)
Definition trunc (q : Q) : Z := Z.quot (Qnum q) (Z.pos (Qden q)).

Definition digit_value (c : ascii) : Z := Str.code c - 48.

(** Decimal digits with single underscores between them. *)
Fixpoint digits (s : string) (acc : Z) (after_digit : bool) : option Z :=
  match s with
  | EmptyString => if after_digit then Some acc else None
  | String c s' =>
      if Str.is_digit c then digits s' (10 * acc + digit_value c) true
      else if Ascii.eqb c "_" && after_digit then digits s' acc false
      else None
  end.

(** [int(s)] on a string, base ten. *)
Definition int_of_str (s : string) : option Z :=
  match Str.strip s with
  | String "-" t => option_map Z.opp (digits t 0 false)
  | String "+" t => digits t 0 false
  | t => digits t 0 false
  end.

(** [int(v)] *)
Definition int (v : json) : result Z :=
  match v with
  | JInt z => ret z
  | JBool b => ret (if b then 1 else 0)
  | JFloat q => ret (trunc q)
  | JStr s =>
      match int_of_str s with
      | Some z => ret z
      | None => raise (PyError (ValueError "int" [v]))
      end
  | _ => raise (PyError (TypeError "int" [v]))
  end.

Definition Qlt_bool (a b : Q) : bool := negb (Qle_bool b a).

(** [v > 0] *)
Definition positive (v : json) : result bool :=
  match as_number v with
  | Some q => ret (Qlt_bool 0 q)
  | None => raise (PyError (TypeError ">" [v; JInt 0]))
  end.

(** Rounding to the nearest integer, ties to even. *)
Definition round_half_even (q : Q) : Z :=
  let f := Qfloor q in
  match (q - inject_Z f ?= 1 # 2)%Q with
  | Lt => f
  | Gt => f + 1
  | Eq => if Z.even f then f else f + 1
  end.

(** [f"{q:.1f}"] *)
Definition format_1f (q : Q) : string :=
  let t := Z.abs (round_half_even (q * 10)) in
  (if Qlt_bool q 0 then "-" else "")
    +:+ pretty (t / 10) +:+ "." +:+ pretty (t mod 10).

End Py.

(** ** Dates *)

Module Date.

(** Day numbers of 0001-01-01 and 9999-12-31, the range of [datetime]. *)
Definition min_day : Z := -719162.
Definition max_day : Z := 2932896.

(** Year, month and day of a day number (proleptic Gregorian calendar). *)
Definition civil (day : Z) : Z * Z * Z :=
  let z := day + 719468 in
  let era := z / 146097 in
  let doe := z - era * 146097 in
  let yoe := (doe - doe / 1460 + doe / 36524 - doe / 146096) / 365 in
  let doy := doe - (365 * yoe + yoe / 4 - yoe / 100) in
  let mp := (5 * doy + 2) / 153 in
  let d := doy - (153 * mp + 2) / 5 + 1 in
  let m := if mp <? 10 then mp + 3 else mp - 9 in
  let y := yoe + era * 400 + (if m <=? 2 then 1 else 0) in
  (y, m, d).

Definition digit (n : Z) : ascii := ascii_of_N (Z.to_N (48 + n mod 10)).

Definition pad2 (n : Z) : string :=
  String (digit (n / 10)) (String (digit n) "").
Definition pad4 (n : Z) : string :=
  String (digit (n / 1000)) (String (digit (n / 100)) (pad2 n)).

(** [d.strftime("%Y%m%d")], the year on four digits. *)
Definition strftime_Ymd (day : Z) : string :=
  let '(y, m, d) := civil day in
  pad4 y +:+ pad2 m +:+ pad2 d.

(** [datetime.utcfromtimestamp(ts).date()]: the timestamp is rounded to
    the microsecond, ties to even, and must fall in years 1 to 9999. *)
Definition utc_date (ts : json) : result Z :=
  match Py.as_number ts with
  | None => raise (PyError (TypeError "utcfromtimestamp" [ts]))
  | Some q =>
      let us := Py.round_half_even (q * 1000000) in
      let day := us / 86400000000 in
      if (min_day <=? day) && (day <=? max_day) then ret day
      else raise (PyError (OverflowError "utcfromtimestamp" [ts]))
  end.

End Date.

Record datetime := { dt_day : Z; dt_microsecond : Z }.

(** [datetime.combine(day, datetime.min.time())] *)
Definition midnight (day : Z) : datetime :=
  {| dt_day := day; dt_microsecond := 0 |}.

(** [dt + timedelta(days=1)] *)
Definition next_day (dt : datetime) : result datetime :=
  if dt_day dt + 1 <=? Date.max_day
  then ret {| dt_day := dt_day dt + 1; dt_microsecond := dt_microsecond dt |}
  else raise (PyError (OverflowError "date" [JInt (dt_day dt + 1)])).

(** Order of [datetime] values. *)
Definition datetime_lt (a b : datetime) : Prop :=
  dt_day a < dt_day b \/
  (dt_day a = dt_day b /\ dt_microsecond a < dt_microsecond b).

(** ** [get_weather_emoji] *)

Definition get_weather_emoji (condition description : string) : string :=
  let condition_lower := Str.lower condition in
  let description_lower := Str.lower description in
  if String.eqb condition_lower "clear" then "â˜€ï¸"
  else if String.eqb condition_lower "clouds" then
    if Str.contains "few" description_lower
       || Str.contains "scattered" description_lower then "ðŸŒ¤ï¸"
    else if Str.contains "broken" description_lower then "â›…"
    else "â˜ï¸"
  else if String.eqb condition_lower "rain"
          || String.eqb condition_lower "drizzle" then
    if Str.contains "light" description_lower
       || Str.contains "drizzle" description_lower then "ðŸŒ¦ï¸"
    else if Str.contains "heavy" description_lower
            || Str.contains "extreme" description_lower then "ðŸŒ§ï¸"
    else "ðŸŒ§ï¸"
  else if String.eqb condition_lower "thunderstorm" then "â›ˆï¸"
  else if String.eqb condition_lower "snow" then
    if Str.contains "light" description_lower then "ðŸŒ¨ï¸"
    else if Str.contains "heavy" description_lower then "â„ï¸"
    else "â„ï¸"
  else if String.eqb condition_lower "mist"
          || String.eqb condition_lower "fog"
          || String.eqb condition_lower "haze" then "ðŸŒ«ï¸"
  else if String.eqb condition_lower "dust"
          || String.eqb condition_lower "sand" then "ðŸŒªï¸"
  else if String.eqb condition_lower "tornado" then "ðŸŒªï¸"
  else if String.eqb condition_lower "squall" then "ðŸ’¨"
  else if String.eqb condition_lower "ash" then "ðŸŒ‹"
  else "ðŸŒ¡ï¸".

(** ** The outside world *)

Record request := {
  url : string;
  params : list (string * json);
  timeout : Z
}.

(** What the client sees of an HTTP response: the status code, the decoded
    body ([None] when [response.json()] raises) and the message of the
    [HTTPError] that [raise_for_status] raises for a 4xx or 5xx status. *)
Record response := {
  status_code : Z;
  json_body : option json;
  http_error : string
}.

(** [requests.get] either raises a [RequestException] or returns. *)
Inductive outcome :=
| Failed (msg : string)
| Responded (r : response).

Record world := {
  getenv_OPENWEATHERMAP_API_KEY : option string;
  requests_get : request -> outcome
}.

(** Code the routine calls and that is not part of [weather.py]:
    [utils.make_slug], [str(e)] of an interpreter exception, and [str(v)] of
    a value that is not a string (as an f-string renders it). *)
Record externals := {
  make_slug : json -> result string;
  str_exc : py_error -> string;
  str_json : json -> string
}.

(** [base.Event], taken as the record of the fields the routine passes. *)
Record Event := {
  uid : string;
  title : string;
  start : datetime;
  end_ : datetime;
  all_day : bool;
  description : string;
  location : json
}.

(** Calls that reach the network: a result together with the requests
    issued so far, oldest first. *)
Definition M (A : Type) : Type := list request -> result A * list request.

Definition lift {A} (r : result A) : M A := fun log => (r, log).
Definition bindM {A B} (m : M A) (k : A -> M B) : M B :=
  fun log =>
    match m log with
    | (inl e, log') => (inl e, log')
    | (inr a, log') => k a log'
    end.

Notation "x <~ m ;; k" := (bindM m (fun x => k))
  (at level 100, m at next level, right associativity).

Definition http_get (W : world) (rq : request) : M response :=
  fun log =>
    (match requests_get W rq with
     | Failed msg => raise (RequestException msg)
     | Responded r => ret r
     end, log ++ [rq]).

Definition raise_for_status (r : response) : result unit :=
  if (400 <=? status_code r) && (status_code r <? 600)
  then raise (RequestException (http_error r))
  else ret tt.

(** ** [fetch_events] *)

Record bucket := {
  forecasts : list json;
  temps : list json;
  humidities : list json;
  wind_speeds : list json;
  wind_degs : list json;
  clouds : list json;
  pressures : list json;
  weather_conditions : list json
}.

Definition new_bucket : bucket :=
  {| forecasts := []; temps := []; humidities := []; wind_speeds := [];
     wind_degs := []; clouds := []; pressures := []; weather_conditions := [] |}.

(** The per-day figures computed in the aggregation loop. *)
Record summary := {
  temp_min : Q;
  temp_max : Q;
  temp_avg : Q;
  humidity_avg : Q;
  wind_speed_avg : Q;
  clouds_avg : Q;
  pressure_avg : Q;
  condition_text : string;
  condition : json;
  wind_deg_avg : Q
}.

Definition geocode_url : string := "https://api.openweathermap.org/geo/1.0/direct".
Definition forecast_url : string := "https://api.openweathermap.org/data/2.5/forecast".

(** Lines 125 to 132. *)
Definition geocode_request (location api_key : string) : request :=
  {| url := geocode_url;
     params := [("q", JStr location); ("limit", JInt 1); ("appid", JStr api_key)];
     timeout := 15 |}.

(** Lines 171 to 179. *)
Definition forecast_request (lat lon : json) (units api_key : string) : request :=
  {| url := forecast_url;
     params := [("lat", lat); ("lon", lon); ("units", JStr units);
                ("appid", JStr api_key)];
     timeout := 15 |}.

Definition directions : list string :=
  ["N"; "NNE"; "NE"; "ENE"; "E"; "ESE"; "SE"; "SSE";
   "S"; "SSW"; "SW"; "WSW"; "W"; "WNW"; "NW"; "NNW"].

Definition temp_unit (units : string) : string :=
  if String.eqb units "metric" then "Â°C"
  else if String.eqb units "imperial" then "Â°F" else "K".

Definition wind_unit (units : string) : string :=
  if String.eqb units "metric" then "m/s"
  else if String.eqb units "imperial" then "mph" else "m/s".

(** [not s or not s.strip()] *)
Definition blank (s : string) : bool :=
  String.eqb s "" || String.eqb (Str.strip s) "".

Definition blank_key (k : option string) : bool :=
  match k with
  | None => true
  | Some s => blank s
  end.

(** Lines 108 and 109: the key given, else the one of the environment. *)
Definition resolve_key (W : world) (api_key : option string) : option string :=
  if blank_key api_key then getenv_OPENWEATHERMAP_API_KEY W else api_key.

(** Lines 116 and 117. *)
Definition clamp_days (days : Z) : Z :=
  if (days <? 1) || (days >? 5) then Z.min (Z.max days 1) 5 else days.

(** Lines 120 to 122. *)
Definition normalize_units (units : string) : string :=
  let units := Str.lower units in
  if String.eqb units "metric" || String.eqb units "imperial"
     || String.eqb units "kelvin"
  then units else "metric".


(** [min(l)], [max(l)] and [sum(l) / len(l)] on numbers. *)
Definition list_min (l : list Q) : Q :=
  match l with
  | [] => 0%Q
  | x :: l' => fold_left (fun m y => if Py.Qlt_bool y m then y else m) l' x
  end.
Definition list_max (l : list Q) : Q :=
  match l with
  | [] => 0%Q
  | x :: l' => fold_left (fun m y => if Py.Qlt_bool m y then y else m) l' x
  end.
Definition list_sum (l : list Q) : Q := fold_left Qplus l 0%Q.
Definition average (l : list Q) : Q :=
  match l with
  | [] => 0%Q
  | _ => (list_sum l / inject_Z (Z.of_nat (length l)))%Q
  end.

(** The numbers of a bucket list; [min], [max] and [sum] raise a
    [TypeError] on a list that holds anything else. *)
Definition numbers (field : string) (l : list json) : result (list Q) :=
  match mapM (fun v => match Py.as_number v with
                       | Some q => ret q
                       | None => raise (PyError (TypeError field [JList l]))
                       end) l with
  | inl e => inl e
  | inr qs => ret qs
  end.

(** [[d for d in l if d > 0]] *)
Fixpoint positive_readings (l : list json) : result (list Q) :=
  match l with
  | [] => ret []
  | d :: l' =>
      keep <- Py.positive d ;;
      rest <- positive_readings l' ;;
      ret (if keep then default 0%Q (Py.as_number d) :: rest else rest)
  end.

Section Routine.

Context (X : externals).

(** A value interpolated in an f-string. *)
Definition format (v : json) : string :=
  match v with
  | JStr s => s
  | _ => str_json X v
  end.

(** The checks made on each upstream response, down to
    [raise_for_status]; returns the decoded body. *)
Definition body_error (data : json) : result unit :=
  match data with
  | JDict d =>
      let cod := Py.dict_get d "cod" in
      let message := Py.dict_get d "message" in
      if match cod with Some c => Py.eq_str c "401" | None => false end then
        raise (HTTPException 401 (default (JStr "Invalid API key") message))
      else if match cod with Some c => Py.eq_str c "429" | None => false end then
        raise (HTTPException 429 (default (JStr "API rate limit exceeded") message))
      else if bool_decide (is_Some message)
              && negb (Py.eq_str (default JNull cod) "200") then
        let error_msg := default (JStr "Unknown error") message in
        error_code <- Py.int (default (JInt 500) cod) ;;
        raise (HTTPException error_code
                 (JStr ("Weather API error: " +:+ format error_msg)))
      else ret tt
  | _ => ret tt
  end.

Definition read_response (r : response) : result json :=
  if status_code r =? 401 then
    raise (HTTPException 401 (JStr "Invalid API key"))
  else if status_code r =? 429 then
    raise (HTTPException 429 (JStr "API rate limit exceeded"))
  else
    data <- match json_body r with
            | Some data => ret data
            | None =>
                raise_for_status r ;;;
                raise (HTTPException 500 (JStr "Invalid response from weather API"))
            end ;;
    body_error data ;;;
    raise_for_status r ;;;
    ret data.

(** Lines 104 to 122: the inputs after validation, as
    (location, api_key, days, units). *)
Definition validate (W : world) (location : string) (api_key : option string)
    (days : Z) (units : string) : result (string * string * Z * string) :=
  if blank location then
    raise (HTTPException 400 (JStr "Location is required"))
  else
    let api_key := resolve_key W api_key in
    if blank_key api_key then
      raise (HTTPException 500 (JStr "OpenWeatherMap API key not configured. Please set OPENWEATHERMAP_API_KEY environment variable or provide api_key parameter."))
    else
      let api_key := Str.strip (default "" api_key) in
      let days := clamp_days days in
      let location := Str.strip location in
      let units := normalize_units units in
      ret (location, api_key, days, units).

(** Lines 160 to 168: latitude, longitude and display name. *)
Definition read_geocode (location : string) (geocode_data : json)
    : result (json * json * json) :=
  empty <- (if negb (Py.truthy geocode_data) then ret true
            else n <- Py.len geocode_data ;; ret (n =? 0)) ;;
  if (empty : bool) then
    raise (HTTPException 404 (JStr ("Location not found: " +:+ location)))
  else
    first <- Py.first geocode_data ;;
    lat <- Py.getitem first "lat" ;;
    lon <- Py.getitem first "lon" ;;
    city_name <- Py.get first "name" (JStr location) ;;
    country <- Py.get first "country" (JStr "") ;;
    let location_display := city_name in
    ret (lat, lon, location_display).

(** Lines 218 to 252: one pass of the grouping loop. *)
Definition add_forecast (daily_forecasts : gmap Z bucket) (forecast : json)
    : result (gmap Z bucket) :=
  timestamp <- Py.get forecast "dt" (JInt 0) ;;
  if Py.eq_zero timestamp then ret daily_forecasts
  else
    day_key <- Date.utc_date timestamp ;;
    let b := default new_bucket (daily_forecasts !! day_key) in
    main <- Py.get forecast "main" (JDict []) ;;
    temp <- Py.get main "temp" (JInt 0) ;;
    humidity <- Py.get main "humidity" (JInt 0) ;;
    pressure <- Py.get main "pressure" (JInt 0) ;;
    wind <- Py.get forecast "wind" (JDict []) ;;
    speed <- Py.get wind "speed" (JInt 0) ;;
    deg <- Py.get wind "deg" (JInt 0) ;;
    cloud <- Py.get forecast "clouds" (JDict []) ;;
    all <- Py.get cloud "all" (JInt 0) ;;
    weather_list <- Py.get forecast "weather" (JList [JDict []]) ;;
    weather <- Py.first weather_list ;;
    ret (<[day_key :=
             {| forecasts := forecasts b ++ [forecast];
                temps := temps b ++ [temp];
                humidities := humidities b ++ [humidity];
                wind_speeds := wind_speeds b ++ [speed];
                wind_degs := wind_degs b ++ [deg];
                clouds := clouds b ++ [all];
                pressures := pressures b ++ [pressure];
                weather_conditions := weather_conditions b ++ [weather] |}]>
           daily_forecasts).

(** Lines 260 to 285: the figures of one day. *)
Definition summarize (day_data : bucket) : result summary :=
  ts <- numbers "temps" (temps day_data) ;;
  hs <- numbers "humidities" (humidities day_data) ;;
  ws <- numbers "wind_speeds" (wind_speeds day_data) ;;
  cs <- numbers "clouds" (clouds day_data) ;;
  ps <- numbers "pressures" (pressures day_data) ;;
  dc <- match weather_conditions day_data with
        | [] => ret ("Unknown", JStr "Unknown")
        | conditions =>
            let mid_index := (length conditions / 2)%nat in
            let primary_weather := nth mid_index conditions JNull in
            text <- Py.get primary_weather "description" (JStr "") ;;
            description <- match text with
                           | JStr s => ret (Str.capitalize s)
                           | _ => raise (PyError (AttributeError text "capitalize"))
                           end ;;
            condition <- Py.get primary_weather "main" (JStr "Unknown") ;;
            ret (description, condition)
        end ;;
  degs <- positive_readings (wind_degs day_data) ;;
  ret {| temp_min := list_min ts;
         temp_max := list_max ts;
         temp_avg := average ts;
         humidity_avg := average hs;
         wind_speed_avg := average ws;
         clouds_avg := average cs;
         pressure_avg := average ps;
         condition_text := fst dc;
         condition := snd dc;
         wind_deg_avg := average degs |}.

(** The clauses joined into the description, lines 298 to 310. *)
Definition desc_parts (units : string) (s : summary) : list string :=
  [ "Temperature: " +:+ pretty (Py.trunc (temp_min s)) +:+ temp_unit units
      +:+ " - " +:+ pretty (Py.trunc (temp_max s)) +:+ temp_unit units;
    "Condition: " +:+ condition_text s;
    "Humidity: " +:+ pretty (Py.trunc (humidity_avg s)) +:+ "%";
    "Wind: " +:+ Py.format_1f (wind_speed_avg s) +:+ " " +:+ wind_unit units;
    "Clouds: " +:+ pretty (Py.trunc (clouds_avg s)) +:+ "%";
    "Pressure: " +:+ pretty (Py.trunc (pressure_avg s)) +:+ " hPa" ]
  ++ (if Py.Qlt_bool 0 (wind_deg_avg s) then
        let wind_dir :=
          nth (Z.to_nat
                 (Py.trunc ((wind_deg_avg s + (1125 # 100)) / (225 # 10))%Q mod 16))
              directions "" in
        [ "Wind Direction: " +:+ wind_dir ]
      else []).

(** Lines 287 to 329: the event of one day. *)
Definition make_event (units : string) (location_display : json)
    (day_key : Z) (s : summary) : result Event :=
  let start_dt := midnight day_key in
  end_dt <- next_day start_dt ;;
  emoji <- match condition s with
           | JStr c => ret (get_weather_emoji c (condition_text s))
           | c => raise (PyError (AttributeError c "lower"))
           end ;;
  let title :=
    emoji +:+ " " +:+ pretty (Py.trunc (temp_avg s)) +:+ temp_unit units
      +:+ " " +:+ format location_display in
  let description_text := Str.join " | " (desc_parts units s) in
  let date_str := Date.strftime_Ymd (dt_day start_dt) in
  location_slug <- make_slug X location_display ;;
  let uid := "weather-" +:+ location_slug +:+ "-" +:+ date_str in
  ret {| uid := uid; title := title; start := start_dt; end_ := end_dt;
         all_day := true; description := description_text;
         location := location_display |}.

Definition day_event (units : string) (location_display : json)
    (daily_forecasts : gmap Z bucket) (day_key : Z) : result Event :=
  match daily_forecasts !! day_key with
  | None => raise (PyError (KeyError (JInt day_key)))
  | Some day_data =>
      s <- summarize day_data ;;
      make_event units location_display day_key s
  end.

(** [sorted(daily_forecasts.keys())[:days]] *)
Definition sorted_days (daily_forecasts : gmap Z bucket) (days : Z) : list Z :=
  take (Z.to_nat days) (merge_sort Z.le (map fst (map_to_list daily_forecasts))).

(** Lines 207 to 332: from the decoded forecast to the events. *)
Definition daily_events (forecast_data : json) (days : Z) (units : string)
    (location_display : json) : result (list Event) :=
  has_list <- Py.contains "list" forecast_data ;;
  if negb has_list then
    raise (HTTPException 500 (JStr "Invalid forecast response format"))
  else
    samples <- Py.getitem forecast_data "list" ;;
    items <- Py.iter samples ;;
    daily_forecasts <- foldM add_forecast items ∅ ;;
    mapM (day_event units location_display daily_forecasts)
         (sorted_days daily_forecasts days).

(** The body of the [try] block. *)
Definition fetch_events_body (W : world) (location : string)
    (api_key : option string) (days : Z) (units : string) : M (list Event) :=
  v <~ lift (validate W location api_key days units) ;;
  let '(location, api_key, days, units) := v in
  geocode_response <~ http_get W (geocode_request location api_key) ;;
  g <~ lift (geocode_data <- read_response geocode_response ;;
             read_geocode location geocode_data) ;;
  let '(lat, lon, location_display) := g in
  forecast_response <~
    http_get W (forecast_request lat lon units api_key) ;;
  lift (forecast_data <- read_response forecast_response ;;
        daily_events forecast_data days units location_display).

(** The three [except] clauses. *)
Definition handle {A} (r : result A) : result A :=
  match r with
  | inr a => inr a
  | inl (HTTPException code detail) => inl (HTTPException code detail)
  | inl (RequestException msg) =>
      inl (HTTPException 502 (JStr ("Weather API request failed: " +:+ msg)))
  | inl (PyError e) =>
      inl (HTTPException 500
             (JStr ("Failed to fetch weather events: " +:+ str_exc X e)))
  end.

(** [fetch_events]: the result and the requests it issued. *)
Definition fetch_events (W : world) (location : string)
    (api_key : option string) (days : Z) (units : string)
    : result (list Event) * list request :=
  let '(r, log) := fetch_events_body W location api_key days units [] in
  (handle r, log).

End Routine.

(** ** Notions used to state the properties *)

(** The day-key of a sample that the grouping loop keeps: [None] for a
    sample it skips (timestamp zero or absent) or cannot date. *)
Definition sample_day (forecast : json) : option Z :=
  match Py.get forecast "dt" (JInt 0) with
  | inr timestamp =>
      if Py.eq_zero timestamp then None
      else match Date.utc_date timestamp with
           | inr day => Some day
           | inl _ => None
           end
  | inl _ => None
  end.

(** The samples of a forecast list that fall on day [k], in order. *)
Definition day_samples (items : list json) (k : Z) : list json :=
  filter (fun f => sample_day f = Some k) items.

(** The number of distinct day-keys among the samples. *)
Definition distinct_days (items : list json) : nat :=
  length (remove_dups (omap sample_day items)).

(** [obj.get(group, {}).get(key, 0)], the reading a sample contributes. *)
Definition reading (forecast : json) (group key : string) : json :=
  match Py.get forecast group (JDict []) with
  | inr g => match Py.get g key (JInt 0) with
             | inr v => v
             | inl _ => JNull
             end
  | inl _ => JNull
  end.

(** The samples carried by a response body. *)
Definition response_items (r : response) : list json :=
  match json_body r with
  | Some data =>
      match (samples <- Py.getitem data "list" ;; Py.iter samples) with
      | inr items => items
      | inl _ => []
      end
  | None => []
  end.

(** The answer of the world to the last request of a log. *)
Definition last_response (W : world) (log : list request) : option response :=
  match last log with
  | Some rq => match requests_get W rq with
               | Responded r => Some r
               | Failed _ => None
               end
  | None => None
  end.

(** The samples of the forecast that answered the last request. *)
Definition forecast_samples (W : world) (log : list request) : list json :=
  match last_response W log with
  | Some r => response_items r
  | None => []
  end.

(** The condition entry a sample contributes: [forecast.get("weather", [{}])[0]]. *)
Definition sample_weather (forecast : json) : json :=
  match (l <- Py.get forecast "weather" (JList [JDict []]) ;; Py.first l) with
  | inr w => w
  | inl _ => JNull
  end.

(** The bucket that holds exactly the samples [l], in order. *)
Definition bucket_of (l : list json) : bucket :=
  {| forecasts := l;
     temps := map (fun f => reading f "main" "temp") l;
     humidities := map (fun f => reading f "main" "humidity") l;
     wind_speeds := map (fun f => reading f "wind" "speed") l;
     wind_degs := map (fun f => reading f "wind" "deg") l;
     clouds := map (fun f => reading f "clouds" "all") l;
     pressures := map (fun f => reading f "main" "pressure") l;
     weather_conditions := map sample_weather l |}.

Definition bucket_app (a b : bucket) : bucket :=
  {| forecasts := forecasts a ++ forecasts b;
     temps := temps a ++ temps b;
     humidities := humidities a ++ humidities b;
     wind_speeds := wind_speeds a ++ wind_speeds b;
     wind_degs := wind_degs a ++ wind_degs b;
     clouds := clouds a ++ clouds b;
     pressures := pressures a ++ pressures b;
     weather_conditions := weather_conditions a ++ weather_conditions b |}.

(** A response that carries an upstream error in its body: a dictionary
    with a ["message"] and a ["cod"] [c] other than ["200"], ["401"] and
    ["429"], under an HTTP status other than 401 and 429. *)
Definition api_error_body (r : response) (c : json) : Prop :=
  status_code r <> 401 /\ status_code r <> 429 /\
  exists d m,
    json_body r = Some (JDict d) /\
    Py.dict_get d "cod" = Some c /\ Py.dict_get d "message" = Some m /\
    Py.eq_str c "401" = false /\ Py.eq_str c "429" = false /\
    Py.eq_str c "200" = false.

(** The integer value of a ["cod"] field, 500 when it has none. *)
Definition status_of_cod (c : json) : Z :=
  match Py.int c with
  | inr n => n
  | inl _ => 500
  end.

(** The numeric readings of the samples of day [k]. *)
Definition day_readings (items : list json) (k : Z) (group key : string) : list Q :=
  omap Py.as_number (map (fun f => reading f group key) (day_samples items k)).

(** The compass point of a direction in degrees:
    floor((deg + 11.25) / 22.5) mod 16 in the list of sixteen points. *)
Definition compass (deg : Q) : string :=
  nth (Z.to_nat (Qfloor ((deg + (1125 # 100)) / (225 # 10))%Q mod 16))
      directions "".

(** A sample that has no reading [key] in its [group]: the group is absent,
    or it is a dictionary without the key. *)
Definition lacks (forecast : json) (group key : string) : Prop :=
  exists d,
    forecast = JDict d /\
    match Py.dict_get d group with
    | None => True
    | Some (JDict g) => Py.dict_get g key = None
    | Some _ => False
    end.

(** A sample that the grouping loop passes over: a dictionary whose
    timestamp is absent or equal to zero. *)
Definition skipped (forecast : json) : bool :=
  match Py.get forecast "dt" (JInt 0) with
  | inr timestamp => Py.eq_zero timestamp
  | inl _ => false
  end.

(** A string with its ASCII letters in upper case. *)
Fixpoint upper (s : string) : string :=
  match s with
  | EmptyString => EmptyString
  | String c s' => String (Str.upper_char c) (upper s')
  end.

(** A value that [min], [max], [sum] and [>] accept: a number. *)
Definition numeric (v : json) : bool :=
  match Py.as_number v with
  | Some _ => true
  | None => false
  end.

(** [forecast.get(group, {})] is a dictionary. *)
Definition dict_group (forecast : json) (group : string) : bool :=
  match Py.get forecast group (JDict []) with
  | inr (JDict _) => true
  | _ => false
  end.

(** A condition entry whose description and main label, when present, are
    strings. *)
Definition readable_condition (w : json) : bool :=
  match w with
  | JDict d =>
      match Py.dict_get d "description" with
      | None | Some (JStr _) => true
      | Some _ => false
      end
      && match Py.dict_get d "main" with
         | None | Some (JStr _) => true
         | Some _ => false
         end
  | _ => false
  end.

(** A dated sample of a day before the last day of year 9999, whose
    groups are dictionaries, whose readings are numbers and whose first
    condition entry is readable. *)
Definition aggregable (f : json) : bool :=
  match sample_day f with
  | Some k => k + 1 <=? Date.max_day
  | None => false
  end
  && dict_group f "main" && dict_group f "wind" && dict_group f "clouds"
  && numeric (reading f "main" "temp")
  && numeric (reading f "main" "humidity")
  && numeric (reading f "main" "pressure")
  && numeric (reading f "wind" "speed")
  && numeric (reading f "wind" "deg")
  && numeric (reading f "clouds" "all")
  && match (l <- Py.get f "weather" (JList [JDict []]) ;; Py.first l) with
     | inr w => readable_condition w
     | inl _ => false
     end.

(** A sample that the routine handles: it is passed over, or it can be
    aggregated. *)
Definition well_formed_sample (f : json) : bool := skipped f || aggregable f.

(** ** [base/routes.py]: the route that serves an integration *)

Module Ics.

(** One entry of the list handed to [utils.generate_ics]: the dictionary
    with the keys "name", "begin", "end", "description", "location",
    "uid", "all_day" and "status". *)
Record ics_event := {
  name : string;
  begin : datetime;
  end_ : datetime;
  description : string;
  location : json;
  uid : string;
  all_day : bool;
  status : string
}.

End Ics.

Module Routes.

(** What the route returns: a [PlainTextResponse] or the events. *)
Inductive reply :=
| PlainTextResponse (text media_type : string)
| Events (events : list Event).

(** The dictionary built for one event, lines 30 to 39. *)
Definition ics_entry (ev : Event) : Ics.ics_event :=
  {| Ics.name := title ev;
     Ics.begin := start ev;
     Ics.end_ := end_ ev;
     Ics.description := description ev;
     Ics.location := location ev;
     Ics.uid := uid ev;
     Ics.all_day := all_day ev;
     Ics.status := "CONFIRMED" |}.

(** The loop of lines 27 to 40: the entries are appended one by one. *)
Fixpoint ics_loop (events : list Event) (ics_events : list Ics.ics_event)
    : list Ics.ics_event :=
  match events with
  | [] => ics_events
  | ev :: rest => ics_loop rest (ics_events ++ [ics_entry ev])
  end.

(** Lines 42 to 44. *)
Definition calendar_name (X : externals) (integration_id integration_name : string)
    (events : list Event) : string :=
  match events with
  | ev :: _ =>
      if String.eqb integration_id "daily-weather-forecast"
         && Py.truthy (location ev)
      then integration_name +:+ " - " +:+ format X (location ev)
      else integration_name
  | [] => integration_name
  end.

(** [fetch_events_wrapper], lines 17 to 48. [ics] is the keyword argument
    of that name when it is given, [fetched] the outcome of the call of
    [calendar_instance.fetch_events] on the other arguments, and [generate_ics]
    stands for [utils.generate_ics], which is not part of the file. *)
Definition fetch_events_wrapper (X : externals)
    (generate_ics : list Ics.ics_event -> string -> result string)
    (integration_id integration_name : string)
    (ics : option bool) (fetched : result (list Event)) : result reply :=
  let ics := default true ics in
  events <- fetched ;;
  if ics then
    let ics_events := ics_loop events [] in
    let calendar_name := calendar_name X integration_id integration_name events in
    ics_text <- generate_ics ics_events calendar_name ;;
    ret (PlainTextResponse ics_text "text/plain")
  else ret (Events events).

End Routes.

(** ** [main.py]: the allowed origins and the route prefixes *)

Module Main.

(** [s.split(sep)] for a separator of one character. *)
Fixpoint split (sep : ascii) (s : string) : list string :=
  match s with
  | EmptyString => [EmptyString]
  | String c s' =>
      if Ascii.eqb c sep then EmptyString :: split sep s'
      else match split sep s' with
           | piece :: pieces => String c piece :: pieces
           | [] => [String c EmptyString]
           end
  end.

(** Lines 30 to 39; the argument is the value of CORS_ORIGINS in the
    environment, [None] when it is not set. *)
Definition allowed_origins (CORS_ORIGINS : option string) : list string :=
  let cors_origins_env := default "" CORS_ORIGINS in
  if negb (String.eqb cors_origins_env "") then
    map Str.strip
        (List.filter (fun origin => negb (String.eqb (Str.strip origin) ""))
                     (split "," cors_origins_env))
  else ["https://sync2cal.com"; "https://www.sync2cal.com"].

(** [s.replace(old, new)] for strings of one character. *)
Fixpoint replace (old new : ascii) (s : string) : string :=
  match s with
  | EmptyString => EmptyString
  | String c s' =>
      String (if Ascii.eqb c old then new else c) (replace old new s')
  end.

(** Line 143: the prefix under which an integration is mounted. *)
Definition prefix (integration_id : string) : string :=
  "/" +:+ replace "_" "-" integration_id.

End Main.

(** ** A sample instance, used to run the routine on concrete inputs *)

Module Demo.

Definition is_alnum (c : ascii) : bool :=
  Str.is_digit c || Str.is_lower c || Str.is_upper c.

Fixpoint slug (s : string) (after_sep : bool) : string :=
  match s with
  | EmptyString => EmptyString
  | String c s' =>
      if is_alnum c then String (Str.lower_char c) (slug s' false)
      else if after_sep then slug s' true
      else String "-" (slug s' true)
  end.

(** Modelled from the spec: [utils.make_slug] is not among the sources;
    the specification asks for a deterministic slug, lowercase, with the
    characters that are not alphanumeric collapsed to a separator. *)
Definition slugify (v : json) : result string :=
  match v with
  | JStr s => ret (slug s true)
  | _ => raise (PyError (TypeError "make_slug" [v]))
  end.

Definition exc_text (e : py_error) : string :=
  match e with
  | TypeError op _ => "TypeError in " +:+ op
  | ValueError op _ => "ValueError in " +:+ op
  | OverflowError op _ => "OverflowError in " +:+ op
  | AttributeError _ attr => "no attribute " +:+ attr
  | KeyError (JStr k) => k
  | KeyError _ => "0"
  | IndexError _ => "index out of range"
  end.

Definition json_text (v : json) : string :=
  match v with
  | JNull => "None"
  | JBool true => "True"
  | JBool false => "False"
  | JInt z => pretty z
  | JStr s => s
  | _ => "..."
  end.

Definition X : externals :=
  {| make_slug := slugify; str_exc := exc_text; str_json := json_text |}.

(** A forecast sample with a timestamp, a temperature and a wind degree. *)
Definition sample (dt temp deg : Z) : json :=
  JDict [("dt", JInt dt);
         ("main", JDict [("temp", JInt temp); ("humidity", JInt 50);
                         ("pressure", JInt 1000)]);
         ("wind", JDict [("speed", JFloat (35 # 10)); ("deg", JInt deg)]);
         ("clouds", JDict [("all", JInt 20)]);
         ("weather", JList [JDict [("main", JStr "Clouds");
                                   ("description", JStr "few clouds")]])].

Definition ok (data : json) : response :=
  {| status_code := 200; json_body := Some data; http_error := "" |}.

Definition geocode_body : json :=
  JList [JDict [("name", JStr "Austin"); ("lat", JFloat (3027 # 100));
                ("lon", JFloat (-9774 # 100)); ("country", JStr "US")]].

(** A world with one environment key, whose geocoder answers [geocode]
    and whose forecast endpoint answers [forecast]. *)
Definition world_of (geocode forecast : outcome) : world :=
  {| getenv_OPENWEATHERMAP_API_KEY := Some "secret";
     requests_get := fun rq =>
       if String.eqb (url rq) geocode_url then geocode else forecast |}.

Definition forecast_of (items : list json) : json :=
  JDict [("cod", JStr "200"); ("message", JInt 0); ("list", JList items)].

Definition W (items : list json) : world :=
  world_of (Responded (ok geocode_body)) (Responded (ok (forecast_of items))).

(** 2023-11-14 at 12:00, 15:00 and 18:00 UTC, and the next day at noon. *)
Definition t0 : Z := 1699963200.
Definition three_samples : list json :=
  [sample t0 10 90; sample (t0 + 10800) 15 0; sample (t0 + 21600) 20 (-90)].

End Demo.

(** * Properties *)

(** ** The error monad *)

Lemma bind_inr {A B} (m : result A) (k : A -> result B) (b : B) :
  bind m k = inr b -> exists a, m = inr a /\ k a = inr b.
Proof. destruct m as [e|a]; simpl; [discriminate | eauto]. Qed.

Lemma bind_inl {A B} (m : result A) (k : A -> result B) (e : exn) :
  bind m k = inl e -> m = inl e \/ exists a, m = inr a /\ k a = inl e.
Proof. destruct m as [e'|a]; simpl; [left; congruence | eauto]. Qed.

(** Successive inversion of the binds of a successful computation. *)
Ltac inv_ok H :=
  repeat match type of H with
    | bind _ _ = inr _ =>
        let a := fresh "v" in
        let Ha := fresh "Hv" in
        apply bind_inr in H; destruct H as (a & Ha & H)
    | ret _ = inr _ => unfold ret in H
    | raise _ = inr _ => discriminate H
    | inl _ = inr _ => discriminate H
    | (if ?c then _ else _) = inr _ =>
        let E := fresh "Hc" in destruct c eqn:E
    end.

Lemma mapM_Forall2 {A B} (f : A -> result B) (l : list A) (bs : list B) :
  mapM f l = inr bs -> Forall2 (fun a b => f a = inr b) l bs.
Proof.
  revert bs. induction l as [|a l IH]; simpl; intros bs H.
  - injection H as <-. constructor.
  - inv_ok H. injection H as <-. constructor; auto.
Qed.

Lemma mapM_length {A B} (f : A -> result B) (l : list A) (bs : list B) :
  mapM f l = inr bs -> length bs = length l.
Proof. intros H. symmetry. eapply Forall2_length, mapM_Forall2, H. Qed.

Lemma foldM_app {A B} (f : B -> A -> result B) (l1 l2 : list A) (b : B) :
  foldM f (l1 ++ l2) b = (b' <- foldM f l1 b ;; foldM f l2 b').
Proof.
  revert b. induction l1 as [|a l1 IH]; simpl; intros b; [done|].
  destruct (f b a); simpl; auto.
Qed.

(** ** The grouping loop *)

Lemma bucket_app_assoc (a b c : bucket) :
  bucket_app (bucket_app a b) c = bucket_app a (bucket_app b c).
Proof. unfold bucket_app; simpl. by rewrite <- !(assoc_L (++)). Qed.

Lemma bucket_app_new (b : bucket) : bucket_app new_bucket b = b.
Proof. by destruct b. Qed.

Lemma bucket_of_cons (f : json) (l : list json) :
  bucket_of (f :: l) = bucket_app (bucket_of [f]) (bucket_of l).
Proof. reflexivity. Qed.

Lemma get_reading (forecast g v : json) (group key : string) :
  Py.get forecast group (JDict []) = inr g ->
  Py.get g key (JInt 0) = inr v ->
  reading forecast group key = v.
Proof. unfold reading. by intros -> ->. Qed.

(** One pass either skips the sample or appends it to the bucket of its day. *)
Lemma add_forecast_inv (daily daily' : gmap Z bucket) (f : json) :
  add_forecast daily f = inr daily' ->
  match sample_day f with
  | None => daily' = daily
  | Some k =>
      daily' = <[k := bucket_app (default new_bucket (daily !! k)) (bucket_of [f])]> daily
  end.
Proof.
  unfold add_forecast, sample_day. intros H.
  apply bind_inr in H as (ts & Hts & H). rewrite Hts.
  destruct (Py.eq_zero ts); [by injection H|].
  apply bind_inr in H as (k & Hk & H). rewrite Hk.
  inv_ok H. injection H as <-. f_equal.
  unfold bucket_app, bucket_of, sample_weather; simpl.
  rewrite Hv8; simpl; rewrite Hv9.
  repeat match goal with
    | G : Py.get f ?g _ = inr ?x, K : Py.get ?x ?k _ = inr _ |- _ =>
        rewrite (get_reading _ _ _ _ _ G K); clear K
    end.
  reflexivity.
Qed.

Lemma day_samples_cons (f : json) (items : list json) (k : Z) :
  day_samples (f :: items) k =
    if decide (sample_day f = Some k) then f :: day_samples items k
    else day_samples items k.
Proof. unfold day_samples. by rewrite filter_cons. Qed.

Lemma group_lookup_from (items : list json) (m0 m : gmap Z bucket) :
  foldM add_forecast items m0 = inr m ->
  forall k,
    m !! k = match day_samples items k with
             | [] => m0 !! k
             | l => Some (bucket_app (default new_bucket (m0 !! k)) (bucket_of l))
             end.
Proof.
  revert m0. induction items as [|f items IH]; simpl; intros m0 H k.
  - by injection H as <-.
  - apply bind_inr in H as (m1 & Hf & H).
    rewrite (IH _ H k), day_samples_cons. clear IH H.
    apply add_forecast_inv in Hf.
    destruct (sample_day f) as [k0|] eqn:Hd.
    + subst m1. destruct (decide (Some k0 = Some k)) as [[= ->]|Hne].
      * rewrite lookup_insert_eq; simpl.
        destruct (day_samples items k) as [|g l]; [done|].
        by rewrite bucket_app_assoc.
      * rewrite lookup_insert_ne by congruence. done.
    + subst m1. by destruct (decide (None = Some k)).
Qed.

(** After the loop, the bucket of a day holds exactly the samples of that
    day, in the order of the forecast list. *)
Lemma group_lookup (items : list json) (daily : gmap Z bucket) (k : Z) :
  foldM add_forecast items ∅ = inr daily ->
  daily !! k = match day_samples items k with
               | [] => None
               | l => Some (bucket_of l)
               end.
Proof.
  intros H. rewrite (group_lookup_from _ _ _ H k), lookup_empty; simpl.
  destruct (day_samples items k); [done|]. by rewrite bucket_app_new.
Qed.

(** ** The days that are kept *)

Lemma elem_of_keys (daily : gmap Z bucket) (k : Z) :
  k ∈ map fst (map_to_list daily) <-> is_Some (daily !! k).
Proof.
  change (map fst (map_to_list daily)) with (fst <$> map_to_list daily).
  rewrite list_elem_of_fmap. split.
  - intros ([k' b] & -> & H). apply elem_of_map_to_list in H. by exists b.
  - intros [b H]. exists (k, b). split; [done|]. by apply elem_of_map_to_list.
Qed.

Lemma day_samples_nil (items : list json) (k : Z) :
  day_samples items k = [] <-> k ∉ omap sample_day items.
Proof.
  unfold day_samples. rewrite list_elem_of_omap. split.
  - intros H (f & Hf & Hk).
    assert (f ∈ filter (fun f => sample_day f = Some k) items) as Hin
      by (apply list_elem_of_filter; done).
    rewrite H in Hin. by apply not_elem_of_nil in Hin.
  - intros H. destruct (filter _ items) as [|f l] eqn:E; [done|].
    exfalso. apply H. exists f.
    assert (f ∈ filter (fun f => sample_day f = Some k) items) as Hin
      by (rewrite E; left).
    apply list_elem_of_filter in Hin. destruct Hin; done.
Qed.

Lemma group_keys (items : list json) (daily : gmap Z bucket) (k : Z) :
  foldM add_forecast items ∅ = inr daily ->
  is_Some (daily !! k) <-> k ∈ omap sample_day items.
Proof.
  intros H. rewrite (group_lookup _ _ k H).
  destruct (day_samples items k) as [|f l] eqn:E.
  - apply day_samples_nil in E. split; [by intros [? ?]|done].
  - split; [|by eauto]. intros _.
    destruct (decide (k ∈ omap sample_day items)) as [|Hn]; [done|].
    apply day_samples_nil in Hn. congruence.
Qed.

(** The dictionary has one key per distinct day-key of the samples. *)
Lemma group_size (items : list json) (daily : gmap Z bucket) :
  foldM add_forecast items ∅ = inr daily ->
  length (map fst (map_to_list daily)) = distinct_days items.
Proof.
  intros H. unfold distinct_days. apply Permutation_length, NoDup_Permutation.
  - apply NoDup_fst_map_to_list.
  - apply NoDup_remove_dups.
  - intros k. rewrite elem_of_keys, elem_of_remove_dups. by apply group_keys.
Qed.

Lemma StronglySorted_le_lt (l : list Z) :
  NoDup l -> StronglySorted Z.le l -> StronglySorted Z.lt l.
Proof.
  induction l as [|x l IH]; intros Hnd Hs; [constructor|].
  apply NoDup_cons in Hnd as [Hx Hnd].
  apply StronglySorted_inv in Hs as [Hs Hall].
  constructor; [auto|].
  rewrite Forall_forall in *. intros y Hy.
  specialize (Hall y Hy).
  assert (x <> y) by (intros ->; by apply Hx).
  lia.
Qed.

Lemma StronglySorted_take {A} (R : relation A) (n : nat) (l : list A) :
  StronglySorted R l -> StronglySorted R (take n l).
Proof.
  intros H. rewrite <- (take_drop n l) in H.
  by apply StronglySorted_app_1_l in H.
Qed.

Lemma sorted_days_sorted (daily : gmap Z bucket) (days : Z) :
  StronglySorted Z.lt (sorted_days daily days).
Proof.
  unfold sorted_days. apply StronglySorted_take, StronglySorted_le_lt.
  - rewrite merge_sort_Permutation. apply NoDup_fst_map_to_list.
  - apply (StronglySorted_merge_sort Z.le).
Qed.

Lemma sorted_days_length (daily : gmap Z bucket) (days : Z) :
  length (sorted_days daily days) =
    Nat.min (Z.to_nat days) (length (map fst (map_to_list daily))).
Proof.
  unfold sorted_days. rewrite length_take.
  f_equal. apply Permutation_length, merge_sort_Permutation.
Qed.

Lemma sorted_days_elem (daily : gmap Z bucket) (days k : Z) :
  k ∈ sorted_days daily days -> is_Some (daily !! k).
Proof.
  unfold sorted_days. intros H. apply elem_of_take in H as (i & H & _).
  apply list_elem_of_lookup_2 in H.
  rewrite merge_sort_Permutation in H. by apply elem_of_keys.
Qed.

(** ** Successful runs *)

Section Runs.

Context (X : externals).

Lemma handle_inr {A} (r : result A) (a : A) : handle X r = inr a -> r = inr a.
Proof. destruct r as [[]|]; simpl; congruence. Qed.

Lemma read_response_ok (r : response) (data : json) :
  read_response X r = inr data ->
  json_body r = Some data /\ body_error X data = inr tt /\
  raise_for_status r = inr tt.
Proof.
  unfold read_response. intros H.
  destruct (status_code r =? 401); [discriminate|].
  destruct (status_code r =? 429); [discriminate|].
  apply bind_inr in H as (d & Hd & H).
  destruct (json_body r) as [d'|].
  - injection Hd as ->.
    apply bind_inr in H as ([] & Hb & H).
    apply bind_inr in H as ([] & Hs & H).
    by injection H as <-.
  - apply bind_inr in Hd as (? & _ & Hd). discriminate.
Qed.

Lemma validate_ok (W : world) (location : string) (api_key : option string)
    (days : Z) (units : string) (v : string * string * Z * string) :
  validate W location api_key days units = inr v ->
  blank location = false /\
  exists key,
    resolve_key W api_key = Some key /\
    blank key = false /\
    v = (Str.strip location, Str.strip key, clamp_days days, normalize_units units).
Proof.
  unfold validate. intros H.
  destruct (blank location); [discriminate|]. split; [done|].
  destruct (resolve_key W api_key) as [key|]; [|discriminate].
  simpl in H. destruct (blank key) eqn:Hb; [discriminate|].
  exists key. by injection H as <-.
Qed.

Lemma daily_events_ok (forecast_data : json) (days : Z) (units : string)
    (city : json) (evs : list Event) :
  daily_events X forecast_data days units city = inr evs ->
  exists items daily,
    (samples <- Py.getitem forecast_data "list" ;; Py.iter samples) = inr items /\
    foldM add_forecast items ∅ = inr daily /\
    mapM (day_event X units city daily) (sorted_days daily days) = inr evs.
Proof.
  unfold daily_events. intros H.
  apply bind_inr in H as (has & _ & H).
  destruct (negb has); [discriminate|].
  apply bind_inr in H as (samples & Hs & H).
  apply bind_inr in H as (items & Hi & H).
  apply bind_inr in H as (daily & Hd & H).
  exists items, daily. rewrite Hs; simpl. done.
Qed.

(** What a successful call went through. *)
Lemma fetch_events_ok (W : world) (location : string)
    (api_key : option string) (days : Z) (units : string)
    (evs : list Event) (log : list request) :
  fetch_events X W location api_key days units = (inr evs, log) ->
  exists loc key gresp gdata lat lon city fresp fdata,
    validate W location api_key days units
      = inr (loc, key, clamp_days days, normalize_units units) /\
    requests_get W (geocode_request loc key) = Responded gresp /\
    read_response X gresp = inr gdata /\
    read_geocode loc gdata = inr (lat, lon, city) /\
    requests_get W (forecast_request lat lon (normalize_units units) key)
      = Responded fresp /\
    read_response X fresp = inr fdata /\
    daily_events X fdata (clamp_days days) (normalize_units units) city
      = inr evs /\
    log = [geocode_request loc key;
           forecast_request lat lon (normalize_units units) key].
Proof.
  unfold fetch_events.
  destruct (fetch_events_body X W location api_key days units [])
    as [r log'] eqn:Hb.
  intros [= Hh <-]. apply handle_inr in Hh. subst r. revert Hb.
  unfold fetch_events_body, bindM, lift, http_get.
  destruct (validate W location api_key days units)
    as [e|[[[loc key] d] u]] eqn:Hv; [by intros [= ?]|].
  pose proof (validate_ok _ _ _ _ _ _ Hv) as (_ & k & _ & _ & [= -> -> -> ->]).
  simpl.
  destruct (requests_get W (geocode_request _ _)) as [m|gresp] eqn:Hg;
    simpl; [by intros [= ?]|].
  destruct (read_response X gresp) as [e|gdata] eqn:Hrg;
    simpl; [by intros [= ?]|].
  destruct (read_geocode _ gdata) as [e|[[lat lon] city]] eqn:Hgeo;
    simpl; [by intros [= ?]|].
  destruct (requests_get W (forecast_request _ _ _ _)) as [m|fresp] eqn:Hf;
    simpl; [by intros [= ?]|].
  destruct (read_response X fresp) as [e|fdata] eqn:Hrf;
    simpl; [by intros [= ?]|].
  intros [= Hd <-].
  by exists (Str.strip location), (Str.strip k), gresp, gdata, lat, lon, city,
    fresp, fdata.
Qed.

(** The samples of a successful call are those of the forecast response. *)
Lemma fetch_events_samples (W : world) (location : string)
    (api_key : option string) (days : Z) (units : string)
    (evs : list Event) (log : list request) :
  fetch_events X W location api_key days units = (inr evs, log) ->
  exists city daily,
    foldM add_forecast (forecast_samples W log) ∅ = inr daily /\
    mapM (day_event X (normalize_units units) city daily)
         (sorted_days daily (clamp_days days)) = inr evs.
Proof.
  intros H.
  apply fetch_events_ok in H
    as (loc & key & gresp & gdata & lat & lon & city & fresp & fdata
        & _ & _ & _ & _ & Hf & Hrf & Hd & ->).
  apply daily_events_ok in Hd as (items & daily & Hi & Hg & Hm).
  exists city, daily. split; [|done].
  unfold forecast_samples, last_response; simpl. rewrite Hf.
  unfold response_items.
  apply read_response_ok in Hrf as (-> & _). by rewrite Hi.
Qed.

End Runs.

(** ** Events of a successful run *)

Section Events.

Context (X : externals).

Lemma make_event_ok (units : string) (city : json) (k : Z) (s : summary)
    (ev : Event) :
  make_event X units city k s = inr ev ->
  exists c slug,
    condition s = JStr c /\ make_slug X city = inr slug /\
    k + 1 <= Date.max_day /\
    ev = {| uid := "weather-" +:+ slug +:+ "-" +:+ Date.strftime_Ymd k;
            title := get_weather_emoji c (condition_text s) +:+ " "
                     +:+ pretty (Py.trunc (temp_avg s)) +:+ temp_unit units
                     +:+ " " +:+ format X city;
            start := midnight k;
            end_ := {| dt_day := k + 1; dt_microsecond := 0 |};
            all_day := true;
            description := Str.join " | " (desc_parts units s);
            location := city |}.
Proof.
  unfold make_event, next_day; simpl. intros H.
  destruct (k + 1 <=? Date.max_day) eqn:Hk; [|discriminate]. simpl in H.
  destruct (condition s) as [| | | |c| |]; try discriminate. simpl in H.
  destruct (make_slug X city) as [|slug]; [discriminate|]. simpl in H.
  injection H as <-. exists c, slug. repeat split; [lia].
Qed.

Lemma day_event_ok (units : string) (city : json) (daily : gmap Z bucket)
    (k : Z) (ev : Event) :
  day_event X units city daily k = inr ev ->
  exists b s,
    daily !! k = Some b /\ summarize b = inr s /\
    make_event X units city k s = inr ev.
Proof.
  unfold day_event. destruct (daily !! k) as [b|]; [|discriminate].
  intros H. apply bind_inr in H as (s & Hs & H). by exists b, s.
Qed.

Lemma day_event_start (units : string) (city : json) (daily : gmap Z bucket)
    (k : Z) (ev : Event) :
  day_event X units city daily k = inr ev -> start ev = midnight k.
Proof.
  intros H. apply day_event_ok in H as (b & s & _ & _ & H).
  apply make_event_ok in H as (c & slug & _ & _ & _ & ->). done.
Qed.

Lemma events_start (units : string) (city : json) (daily : gmap Z bucket)
    (ks : list Z) (evs : list Event) :
  mapM (day_event X units city daily) ks = inr evs ->
  map start evs = map midnight ks.
Proof.
  intros H. apply mapM_Forall2 in H.
  induction H as [|k ev ks evs Hk _ IH]; simpl; [done|].
  by rewrite IH, (day_event_start _ _ _ _ _ Hk).
Qed.

Lemma midnight_sorted (ks : list Z) :
  StronglySorted Z.lt ks -> StronglySorted datetime_lt (map midnight ks).
Proof.
  induction 1 as [|k ks _ IH Hk]; simpl; constructor; [done|].
  apply List.Forall_forall. intros d Hd.
  apply in_map_iff in Hd as (k' & <- & Hin).
  rewrite List.Forall_forall in Hk. left; simpl. by apply Hk.
Qed.

Lemma clamp_days_eq (days : Z) : clamp_days days = Z.min (Z.max days 1) 5.
Proof.
  unfold clamp_days.
  destruct (days <? 1) eqn:H1, (days >? 5) eqn:H2; simpl; lia.
Qed.

(** The number of events is exactly the clamped day count or the number
    of distinct days, whichever is smaller. *)
Lemma fetch_events_count (W : world) (location : string)
    (api_key : option string) (days : Z) (units : string)
    (evs : list Event) (log : list request) :
  fetch_events X W location api_key days units = (inr evs, log) ->
  length evs =
    Nat.min (Z.to_nat (clamp_days days)) (distinct_days (forecast_samples W log)).
Proof.
  intros H. apply fetch_events_samples in H as (city & daily & Hg & Hm).
  rewrite (mapM_length _ _ _ Hm), sorted_days_length.
  by rewrite (group_size _ _ Hg).
Qed.

(** C1, as amended: the event list of a successful call holds at most
    min(max(requested days, 1), 5, number of distinct UTC day-keys among
    the samples with a nonzero timestamp) events, and it is sorted by
    strictly ascending start date. *)
Theorem fetch_events_bounded_sorted (W : world) (location : string)
    (api_key : option string) (days : Z) (units : string)
    (evs : list Event) (log : list request) :
  fetch_events X W location api_key days units = (inr evs, log) ->
  Z.of_nat (length evs)
    <= Z.min (Z.min (Z.max days 1) 5)
             (Z.of_nat (distinct_days (forecast_samples W log))) /\
  StronglySorted datetime_lt (map start evs).
Proof.
  intros H. split.
  - rewrite (fetch_events_count _ _ _ _ _ _ _ H), clamp_days_eq. lia.
  - apply fetch_events_samples in H as (city & daily & _ & Hm).
    rewrite (events_start _ _ _ _ _ Hm).
    apply midnight_sorted, sorted_days_sorted.
Qed.

End Events.

(** A run of the sample world on three samples of one day, five days asked. *)
Lemma fetch_events_bounded_sorted_witness :
  exists evs log,
    fetch_events Demo.X (Demo.W Demo.three_samples) "Austin" None 5 "metric"
      = (inr evs, log) /\
    Z.of_nat (length evs)
      <= Z.min (Z.min (Z.max 5 1) 5)
               (Z.of_nat (distinct_days
                            (forecast_samples (Demo.W Demo.three_samples) log))) /\
    StronglySorted datetime_lt (map start evs).
Proof.
  eexists _, _. split; [vm_compute; reflexivity|].
  apply (fetch_events_bounded_sorted Demo.X (Demo.W Demo.three_samples)
           "Austin" None 5 "metric").
  vm_compute. reflexivity.
Defined.

(** C1 as stated fails when the requested day count is below one: the count
    is clamped up to one, so one event comes back although
    min(0, 5, 1) = 0. *)
Lemma fetch_events_zero_days_counterexample :
  exists evs log,
    fetch_events Demo.X (Demo.W Demo.three_samples) "Austin" None 0 "metric"
      = (inr evs, log) /\
    ~ (Z.of_nat (length evs)
         <= Z.min (Z.min 0 5)
                  (Z.of_nat (distinct_days
                               (forecast_samples (Demo.W Demo.three_samples) log)))).
Proof.
  eexists _, _. split; [vm_compute; reflexivity|].
  vm_compute. intros H. apply H. reflexivity.
Qed.

(** ** The course of a call *)

Section Course.

Context (X : externals).

(** The call unfolded: validation, the geocoding request, the forecast
    request, each with the log it leaves. *)
Lemma fetch_events_eq (W : world) (location : string)
    (api_key : option string) (days : Z) (units : string) :
  fetch_events X W location api_key days units =
    match validate W location api_key days units with
    | inl e => (handle X (inl e), [])
    | inr (loc, key, d, u) =>
        let g := geocode_request loc key in
        match requests_get W g with
        | Failed msg => (handle X (inl (RequestException msg)), [g])
        | Responded gr =>
            match (gdata <- read_response X gr ;; read_geocode loc gdata) with
            | inl e => (handle X (inl e), [g])
            | inr (lat, lon, city) =>
                let f := forecast_request lat lon u key in
                match requests_get W f with
                | Failed msg => (handle X (inl (RequestException msg)), [g; f])
                | Responded fr =>
                    (handle X (fdata <- read_response X fr ;;
                               daily_events X fdata d u city), [g; f])
                end
            end
        end
    end.
Proof.
  unfold fetch_events, fetch_events_body, bindM, lift, http_get.
  destruct (validate W location api_key days units)
    as [e|[[[loc key] d] u]]; [done|]. simpl.
  destruct (requests_get W (geocode_request loc key)) as [msg|gr]; [done|].
  simpl.
  destruct (bind (read_response X gr) _) as [e|[[lat lon] city]]; [done|].
  simpl. by destruct (requests_get W (forecast_request lat lon u key)).
Qed.

(** Every call ends in a success or in an [HTTPException]. *)
Lemma handle_inl {A} (r : result A) (e : exn) :
  handle X r = inl e ->
  (exists code detail, r = inl (HTTPException code detail) /\
                       e = HTTPException code detail) \/
  (exists msg, r = inl (RequestException msg) /\
               e = HTTPException 502
                     (JStr ("Weather API request failed: " +:+ msg))) \/
  (exists e', r = inl (PyError e') /\
              e = HTTPException 500
                    (JStr ("Failed to fetch weather events: " +:+ str_exc X e'))).
Proof.
  destruct r as [[code detail|msg|e']|a]; simpl; intros [= <-]; eauto 6.
Qed.

(** The response to the last request decides the outcome when reading it
    fails. *)
Lemma fetch_events_last_response (W : world) (location : string)
    (api_key : option string) (days : Z) (units : string)
    (res : result (list Event)) (log : list request) (r : response) (e : exn) :
  fetch_events X W location api_key days units = (res, log) ->
  last_response W log = Some r ->
  read_response X r = inl e ->
  res = handle X (inl e).
Proof.
  rewrite fetch_events_eq. unfold last_response.
  destruct (validate W location api_key days units)
    as [e0|[[[loc key] d] u]]; [by intros [= <- <-]|]. simpl.
  destruct (requests_get W (geocode_request loc key)) as [msg|gr] eqn:Hg.
  { intros [= <- <-]; simpl. by rewrite Hg. }
  destruct (bind (read_response X gr) _) as [e0|[[lat lon] city]] eqn:Hr.
  { intros [= <- <-]; simpl. rewrite Hg. intros [= ->] Hre.
    rewrite Hre in Hr. simpl in Hr. by injection Hr as <-. }
  destruct (requests_get W (forecast_request lat lon u key)) as [msg|fr] eqn:Hf.
  { intros [= <- <-]; simpl. by rewrite Hf. }
  intros [= <- <-]; simpl. rewrite Hf. intros [= ->] Hre.
  by rewrite Hre.
Qed.

Lemma fetch_events_first_response (W : world) (location : string)
    (api_key : option string) (days : Z) (units : string)
    (res : result (list Event)) (log : list request) (rq : request)
    (r : response) (e : exn) :
  fetch_events X W location api_key days units = (res, log) ->
  head log = Some rq ->
  requests_get W rq = Responded r ->
  read_response X r = inl e ->
  res = handle X (inl e).
Proof.
  rewrite fetch_events_eq.
  destruct (validate W location api_key days units)
    as [e0|[[[loc key] d] u]]; [by intros [= <- <-]|]. simpl.
  destruct (requests_get W (geocode_request loc key)) as [msg|gr] eqn:Hg.
  { intros [= <- <-] [= <-]. congruence. }
  assert (forall rq', Some (geocode_request loc key) = Some rq' ->
            requests_get W rq' = Responded r -> read_response X r = inl e ->
            bind (read_response X gr) (read_geocode loc) = inl e) as Hfirst.
  { intros rq' [= <-] Hr Hre. rewrite Hg in Hr. injection Hr as ->.
    by rewrite Hre. }
  destruct (bind (read_response X gr) _) as [e0|[[lat lon] city]] eqn:Hr.
  { intros [= <- <-] Hh Hq Hre.
    specialize (Hfirst _ Hh Hq Hre). by injection Hfirst as <-. }
  destruct (requests_get W (forecast_request lat lon u key)) as [msg|fr];
    intros [= <- <-] Hh Hq Hre; specialize (Hfirst _ Hh Hq Hre); discriminate.
Qed.

End Course.

(** ** Failures *)

Section Failures.

Context (X : externals).

(** A response that was read with an error decides the outcome, whichever
    request it answered. *)
Lemma fetch_events_response_error (W : world) (location : string)
    (api_key : option string) (days : Z) (units : string)
    (res : result (list Event)) (log : list request) (rq : request)
    (r : response) (e : exn) :
  fetch_events X W location api_key days units = (res, log) ->
  rq ∈ log ->
  requests_get W rq = Responded r ->
  read_response X r = inl e ->
  res = handle X (inl e).
Proof.
  intros H Hin Hq Hre. revert H Hin. rewrite fetch_events_eq.
  destruct (validate W location api_key days units)
    as [e0|[[[loc key] d] u]].
  { intros [= <- <-] Hin. by apply not_elem_of_nil in Hin. }
  simpl.
  destruct (requests_get W (geocode_request loc key)) as [msg|gr] eqn:Hg.
  { intros [= <- <-] Hin. apply list_elem_of_singleton in Hin. congruence. }
  destruct (bind (read_response X gr) _) as [e0|[[lat lon] city]] eqn:Hr.
  { intros [= <- <-] Hin. apply list_elem_of_singleton in Hin. subst rq.
    rewrite Hg in Hq. injection Hq as ->. rewrite Hre in Hr.
    by injection Hr as <-. }
  assert (rq ∈ [geocode_request loc key; forecast_request lat lon u key] ->
          requests_get W (forecast_request lat lon u key) = Responded r) as Hf.
  { intros Hin. apply elem_of_cons in Hin as [->|Hin].
    - rewrite Hg in Hq. injection Hq as ->. rewrite Hre in Hr. discriminate.
    - apply list_elem_of_singleton in Hin. by subst rq. }
  destruct (requests_get W (forecast_request lat lon u key)) as [msg|fr];
    intros [= <- <-] Hin; specialize (Hf Hin); [discriminate|].
  injection Hf as ->. by rewrite Hre.
Qed.

Lemma int_error (c : json) (e : exn) :
  Py.int c = inl e -> exists e', e = PyError e'.
Proof.
  destruct c; simpl; try (intros [= <-]; eauto); try discriminate.
  destruct (Py.int_of_str s); [discriminate|]. intros [= <-]. eauto.
Qed.

Lemma read_api_error (r : response) (c : json) :
  api_error_body r c ->
  exists e detail,
    read_response X r = inl e /\
    @handle X (list Event) (inl e) = inl (HTTPException (status_of_cod c) detail).
Proof.
  intros (H401 & H429 & d & m & Hb & Hc & Hm & E401 & E429 & E200).
  unfold read_response.
  destruct (status_code r =? 401) eqn:E1; [lia|].
  destruct (status_code r =? 429) eqn:E2; [lia|].
  rewrite Hb; simpl. rewrite Hc, Hm, E401, E429; simpl. rewrite E200; simpl.
  unfold status_of_cod.
  destruct (Py.int c) as [e|n] eqn:Hi; simpl.
  - apply int_error in Hi as (e' & ->). eexists _, _. split; [done|]. done.
  - eexists _, _. split; [done|]. done.
Qed.

(** C2: when the geocoding endpoint, the first to be called, answers HTTP
    200 with a dictionary whose ["cod"] is the string ["401"] and whose
    ["message"] is ["Invalid key"], the call fails with the 401 error of
    detail ["Invalid key"]; with a ["cod"] equal to ["429"] it fails with
    the 429 error that carries the body's message. *)
Theorem geocode_embedded_error (W : world) (location : string)
    (api_key : option string) (days : Z) (units : string)
    (res : result (list Event)) (log : list request) (rq : request)
    (r : response) (d : list (string * json)) :
  fetch_events X W location api_key days units = (res, log) ->
  head log = Some rq ->
  requests_get W rq = Responded r ->
  status_code r = 200 ->
  json_body r = Some (JDict d) ->
  url rq = geocode_url /\
  (Py.dict_get d "cod" = Some (JStr "401") ->
   Py.dict_get d "message" = Some (JStr "Invalid key") ->
   res = inl (HTTPException 401 (JStr "Invalid key"))) /\
  (forall m,
     Py.dict_get d "cod" = Some (JStr "429") ->
     Py.dict_get d "message" = Some m ->
     res = inl (HTTPException 429 m)).
Proof.
  intros H Hh Hq Hs Hb. split; [|split].
  - revert H Hh. rewrite fetch_events_eq.
    destruct (validate W location api_key days units)
      as [e0|[[[loc key] d0] u]]; [by intros [= <- <-]|]. simpl.
    destruct (requests_get W (geocode_request loc key)) as [msg|gr];
      [by intros [= <- <-] [= <-]|].
    destruct (bind (read_response X gr) _) as [e0|[[lat lon] city]];
      [by intros [= <- <-] [= <-]|].
    by destruct (requests_get W (forecast_request lat lon u key));
      intros [= <- <-] [= <-].
  - intros Hc Hm.
    rewrite (fetch_events_first_response X _ _ _ _ _ _ _ _ _
               (HTTPException 401 (JStr "Invalid key")) H Hh Hq); [done|].
    unfold read_response. rewrite Hs, Hb; simpl. by rewrite Hc, Hm.
  - intros m Hc Hm.
    rewrite (fetch_events_first_response X _ _ _ _ _ _ _ _ _
               (HTTPException 429 m) H Hh Hq); [done|].
    unfold read_response. rewrite Hs, Hb; simpl. by rewrite Hc, Hm.
Qed.


(** C7: a call fails in one of three ways. An [HTTPException] raised in the
    body reaches the caller with the same status code and detail; a
    [RequestException] becomes the 502 error; any other exception becomes
    the 500 error whose detail ends with the message of the exception. In
    particular the call fails with the 502 error whenever the last request
    it issued failed in transit, and it never fails with anything but an
    [HTTPException] of one of these three origins. *)
Theorem fetch_events_failure (W : world) (location : string)
    (api_key : option string) (days : Z) (units : string)
    (res : result (list Event)) (log : list request) :
  fetch_events X W location api_key days units = (res, log) ->
  let body := fst (fetch_events_body X W location api_key days units []) in
  (forall code detail,
     body = inl (HTTPException code detail) ->
     res = inl (HTTPException code detail)) /\
  (forall msg,
     body = inl (RequestException msg) ->
     res = inl (HTTPException 502
                  (JStr ("Weather API request failed: " +:+ msg)))) /\
  (forall e,
     body = inl (PyError e) ->
     res = inl (HTTPException 500
                  (JStr ("Failed to fetch weather events: " +:+ str_exc X e)))) /\
  (forall rq msg,
     last log = Some rq -> requests_get W rq = Failed msg ->
     res = inl (HTTPException 502
                  (JStr ("Weather API request failed: " +:+ msg)))) /\
  (forall e,
     res = inl e ->
     (exists code detail,
        body = inl (HTTPException code detail) /\
        e = HTTPException code detail) \/
     (exists msg,
        body = inl (RequestException msg) /\
        e = HTTPException 502
              (JStr ("Weather API request failed: " +:+ msg))) \/
     (exists e',
        body = inl (PyError e') /\
        e = HTTPException 500
              (JStr ("Failed to fetch weather events: " +:+ str_exc X e')))).
Proof.
  intros H body.
  assert (res = handle X body) as Hres.
  { revert H. unfold body, fetch_events.
    by destruct (fetch_events_body X W location api_key days units [])
      as [r l]; intros [= <- <-]. }
  repeat split.
  - intros code detail Hb. by rewrite Hres, Hb.
  - intros msg Hb. by rewrite Hres, Hb.
  - intros e Hb. by rewrite Hres, Hb.
  - clear Hres body. revert H. rewrite fetch_events_eq.
    destruct (validate W location api_key days units)
      as [e0|[[[loc key] d] u]]; [by intros [= <- <-]|]. simpl.
    destruct (requests_get W (geocode_request loc key)) as [m|gr] eqn:Hg.
    { intros [= <- <-] rq msg [= <-] Hq. rewrite Hg in Hq. by injection Hq as ->. }
    destruct (bind (read_response X gr) _) as [e0|[[lat lon] city]].
    { intros [= <- <-] rq msg [= <-] Hq. congruence. }
    destruct (requests_get W (forecast_request lat lon u key)) as [m|fr] eqn:Hf.
    { intros [= <- <-] rq msg [= <-] Hq. rewrite Hf in Hq. by injection Hq as ->. }
    intros [= <- <-] rq msg [= <-] Hq. congruence.
  - intros e He. rewrite Hres in He. by apply handle_inl.
Qed.

End Failures.

(** The geocoder rejects the key in a body sent under HTTP 200. *)
Lemma geocode_embedded_error_witness :
  exists res log,
    fetch_events Demo.X
      (Demo.world_of
         (Responded (Demo.ok (JDict [("cod", JStr "401");
                                     ("message", JStr "Invalid key")])))
         (Failed "unreachable"))
      "Austin" None 5 "metric" = (res, log) /\
    res = inl (HTTPException 401 (JStr "Invalid key")).
Proof.
  eexists _, _. split; [vm_compute; reflexivity|].
  refine (proj1 (proj2 (geocode_embedded_error Demo.X
            (Demo.world_of
               (Responded (Demo.ok (JDict [("cod", JStr "401");
                                           ("message", JStr "Invalid key")])))
               (Failed "unreachable"))
            "Austin" None 5 "metric" _
            [geocode_request "Austin" "secret"]
            (geocode_request "Austin" "secret")
            (Demo.ok (JDict [("cod", JStr "401"); ("message", JStr "Invalid key")]))
            [("cod", JStr "401"); ("message", JStr "Invalid key")]
            _ _ _ _ _)) _ _);
    vm_compute; reflexivity.
Defined.



(** The geocoding request times out. *)
Lemma fetch_events_failure_witness :
  exists res log,
    fetch_events Demo.X (Demo.world_of (Failed "timed out") (Failed ""))
      "Austin" None 5 "metric" = (res, log) /\
    res = inl (HTTPException 502
                 (JStr ("Weather API request failed: " +:+ "timed out"))).
Proof.
  eexists _, _. split; [vm_compute; reflexivity|].
  refine (proj1 (proj2 (proj2 (proj2
            (fetch_events_failure Demo.X
               (Demo.world_of (Failed "timed out") (Failed ""))
               "Austin" None 5 "metric" _ [geocode_request "Austin" "secret"] _))))
            (geocode_request "Austin" "secret") "timed out" _ _);
    vm_compute; reflexivity.
Defined.

(** ** Inputs *)

Section Inputs.

Context (X : externals).

Lemma blank_key_spec (k : option string) :
  blank_key k = true <-> k = None \/ exists s, k = Some s /\ Str.strip s = "".
Proof.
  destruct k as [s|]; simpl; [|by split; eauto].
  unfold blank. split.
  - intros H. right. exists s. split; [done|].
    apply orb_true_iff in H as [H|H]; apply String.eqb_eq in H; by subst.
  - intros [H|(s' & [= <-] & H)]; [done|].
    apply orb_true_iff. right. by apply String.eqb_eq.
Qed.


Lemma normalize_units_other (units : string) :
  Str.lower units <> "metric" -> Str.lower units <> "imperial" ->
  Str.lower units <> "kelvin" -> normalize_units units = "metric".
Proof.
  intros H1 H2 H3. unfold normalize_units.
  apply String.eqb_neq in H1, H2, H3. by rewrite H1, H2, H3.
Qed.


End Inputs.





(** ** The calendar *)

Lemma day_of_era_facts (doe : Z) :
  0 <= doe < 146097 ->
  let yoe := (doe - doe / 1460 + doe / 36524 - doe / 146096) / 365 in
  let doy := doe - (365 * yoe + yoe / 4 - yoe / 100) in
  0 <= yoe <= 399 /\ 0 <= doy <= 365 /\
  (306 <= doe -> yoe = 0 -> 306 <= doy) /\
  (doe <= 146036 -> yoe = 399 -> doy <= 305).
Proof.
  intros H yoe doy. subst yoe doy. Z.div_mod_to_equations. lia.
Qed.

Lemma day_of_year_facts (doy : Z) :
  0 <= doy <= 365 ->
  let mp := (5 * doy + 2) / 153 in
  let d := doy - (153 * mp + 2) / 5 + 1 in
  0 <= mp <= 11 /\ 1 <= d <= 31 /\ (306 <= doy <-> 10 <= mp).
Proof.
  intros H mp d. subst mp d. Z.div_mod_to_equations. lia.
Qed.

(** The era, day of era, year of era, day of year and shifted month that
    [civil] goes through, with their ranges. *)
Lemma civil_decompose (day : Z) :
  exists era doe yoe doy mp,
    day + 719468 = era * 146097 + doe /\ 0 <= doe < 146097 /\
    0 <= yoe <= 399 /\ doe = doy + (365 * yoe + yoe / 4 - yoe / 100) /\
    0 <= doy <= 365 /\ 0 <= mp <= 11 /\
    1 <= doy - (153 * mp + 2) / 5 + 1 <= 31 /\
    (306 <= doe -> yoe = 0 -> 10 <= mp) /\
    (doe <= 146036 -> yoe = 399 -> mp < 10) /\
    Date.civil day =
      (yoe + era * 400 + (if mp <? 10 then 0 else 1),
       (if mp <? 10 then mp + 3 else mp - 9),
       doy - (153 * mp + 2) / 5 + 1).
Proof.
  unfold Date.civil.
  set (z := day + 719468). set (era := z / 146097).
  set (doe := z - era * 146097).
  assert (0 <= doe < 146097) as Hdoe
    by (subst doe era; Z.div_mod_to_equations; lia).
  destruct (day_of_era_facts doe Hdoe) as (Hyoe & Hdoy & Hlo & Hhi).
  cbv zeta in Hyoe, Hdoy, Hlo, Hhi.
  set (yoe := (doe - doe / 1460 + doe / 36524 - doe / 146096) / 365) in *.
  set (doy := doe - (365 * yoe + yoe / 4 - yoe / 100)) in *.
  destruct (day_of_year_facts doy Hdoy) as (Hmp & Hd & Hm).
  cbv zeta in Hmp, Hd, Hm.
  set (mp := (5 * doy + 2) / 153) in *.
  exists era, doe, yoe, doy, mp.
  repeat split; try lia.
  destruct (mp <? 10) eqn:E.
  - apply Z.ltb_lt in E. replace (mp + 3 <=? 2) with false by lia.
    reflexivity.
  - apply Z.ltb_ge in E. replace (mp - 9 <=? 2) with true by lia.
    reflexivity.
Qed.

Lemma civil_inj (a b : Z) : Date.civil a = Date.civil b -> a = b.
Proof.
  destruct (civil_decompose a)
    as (era & doe & yoe & doy & mp & Hz & Hdoe & Hyoe & Hd & Hdoy & Hmp
        & _ & _ & _ & ->).
  destruct (civil_decompose b)
    as (era' & doe' & yoe' & doy' & mp' & Hz' & Hdoe' & Hyoe' & Hd' & Hdoy'
        & Hmp' & _ & _ & _ & ->).
  intros E. apply pair_equal_spec in E as [E Ed].
  apply pair_equal_spec in E as [Ey Em].
  assert (mp = mp') as <-
    by (destruct (mp <? 10) eqn:E1, (mp' <? 10) eqn:E2; lia).
  assert (doy = doy') as <- by lia.
  assert (yoe = yoe' /\ era = era') as [<- <-] by lia.
  lia.
Qed.

(** Within the range of [datetime] the year has at most four digits. *)
Lemma civil_range (day y m d : Z) :
  Date.min_day <= day <= Date.max_day -> Date.civil day = (y, m, d) ->
  1 <= y <= 9999 /\ 1 <= m <= 12 /\ 1 <= d <= 31.
Proof.
  unfold Date.min_day, Date.max_day.
  destruct (civil_decompose day)
    as (era & doe & yoe & doy & mp & Hz & Hdoe & Hyoe & Hd & Hdoy & Hmp
        & Hday & Hlo & Hhi & ->).
  intros H E. apply pair_equal_spec in E as [E Ed].
  apply pair_equal_spec in E as [Ey Em]. subst y m d.
  split; [|split; [|exact Hday]].
  - assert (0 <= era <= 24) as Hera by lia.
    clear Hd Hday Hdoy.
    destruct (mp <? 10) eqn:E; [apply Z.ltb_lt in E|apply Z.ltb_ge in E].
    + split; [|lia].
      destruct (Z.eq_dec era 0) as [->|]; [|lia].
      destruct (Z.eq_dec yoe 0) as [->|]; [|lia]. lia.
    + split; [lia|].
      destruct (Z.eq_dec era 24) as [->|]; [|lia].
      destruct (Z.eq_dec yoe 399) as [->|]; [|lia]. lia.
  - destruct (mp <? 10) eqn:E; [apply Z.ltb_lt in E|apply Z.ltb_ge in E]; lia.
Qed.

Lemma digit_inj (a b : Z) : Date.digit a = Date.digit b -> a mod 10 = b mod 10.
Proof.
  unfold Date.digit. intros H. apply (f_equal N_of_ascii) in H.
  rewrite !N_ascii_embedding in H by (Z.div_mod_to_equations; lia).
  Z.div_mod_to_equations; lia.
Qed.

Lemma pad2_inj (a b : Z) :
  0 <= a < 100 -> 0 <= b < 100 -> Date.pad2 a = Date.pad2 b -> a = b.
Proof.
  unfold Date.pad2. intros Ha Hb [= H1 H2].
  apply digit_inj in H1, H2. Z.div_mod_to_equations; lia.
Qed.

Lemma pad4_inj (a b : Z) :
  0 <= a < 10000 -> 0 <= b < 10000 -> Date.pad4 a = Date.pad4 b -> a = b.
Proof.
  unfold Date.pad4, Date.pad2. intros Ha Hb [= H1 H2 H3 H4].
  apply digit_inj in H1, H2, H3, H4. Z.div_mod_to_equations; lia.
Qed.

(** Two days of the [datetime] range print differently. *)
Lemma strftime_Ymd_inj (a b : Z) :
  Date.min_day <= a <= Date.max_day -> Date.min_day <= b <= Date.max_day ->
  Date.strftime_Ymd a = Date.strftime_Ymd b -> a = b.
Proof.
  intros Ha Hb. unfold Date.strftime_Ymd.
  destruct (Date.civil a) as [[y m] d] eqn:Ea.
  destruct (Date.civil b) as [[y' m'] d'] eqn:Eb.
  destruct (civil_range _ _ _ _ Ha Ea) as (Hy & Hm & Hd).
  destruct (civil_range _ _ _ _ Hb Eb) as (Hy' & Hm' & Hd').
  intros H. apply civil_inj. rewrite Ea, Eb.
  assert (Date.pad4 y = Date.pad4 y' /\ Date.pad2 m = Date.pad2 m' /\
          Date.pad2 d = Date.pad2 d') as (E1 & E2 & E3).
  { revert H. unfold Date.pad4, Date.pad2; simpl.
    intros [= -> -> -> -> -> -> -> ->]. done. }
  apply pad4_inj in E1; [|lia..]. apply pad2_inj in E2, E3; [|lia..].
  by subst.
Qed.

Lemma strftime_Ymd_length (day : Z) : String.length (Date.strftime_Ymd day) = 8%nat.
Proof.
  unfold Date.strftime_Ymd. by destruct (Date.civil day) as [[y m] d].
Qed.

(** ** The figures of a day *)

Lemma Qlt_bool_iff (a b : Q) : Py.Qlt_bool a b = true <-> (a < b)%Q.
Proof.
  unfold Py.Qlt_bool. rewrite negb_true_iff, <- not_true_iff_false, Qle_bool_iff.
  split; [apply Qnot_le_lt|apply Qlt_not_le].
Qed.

Lemma fold_min_spec (l : list Q) (m : Q) :
  let r := fold_left (fun m y => if Py.Qlt_bool y m then y else m) l m in
  (r = m \/ In r l) /\ (r <= m)%Q /\ forall y, In y l -> (r <= y)%Q.
Proof.
  revert m. induction l as [|x l IH]; simpl; intros m.
  - split; [by left|]. split; [apply Qle_refl|tauto].
  - destruct (IH (if Py.Qlt_bool x m then x else m)) as (Hin & Hle & Hall).
    destruct (Py.Qlt_bool x m) eqn:E.
    + apply Qlt_bool_iff in E. split; [|split].
      * destruct Hin as [->|Hin]; auto.
      * eapply Qle_trans; [exact Hle|]. by apply Qlt_le_weak.
      * intros y [<-|Hy]; auto.
    + assert (m <= x)%Q as Hmx.
      { apply Qnot_lt_le. intros Hlt. apply Qlt_bool_iff in Hlt. congruence. }
      split; [|split].
      * destruct Hin as [->|Hin]; auto.
      * done.
      * intros y [<-|Hy]; [|auto]. eapply Qle_trans; eauto.
Qed.

Lemma fold_max_spec (l : list Q) (m : Q) :
  let r := fold_left (fun m y => if Py.Qlt_bool m y then y else m) l m in
  (r = m \/ In r l) /\ (m <= r)%Q /\ forall y, In y l -> (y <= r)%Q.
Proof.
  revert m. induction l as [|x l IH]; simpl; intros m.
  - split; [by left|]. split; [apply Qle_refl|tauto].
  - destruct (IH (if Py.Qlt_bool m x then x else m)) as (Hin & Hle & Hall).
    destruct (Py.Qlt_bool m x) eqn:E.
    + apply Qlt_bool_iff in E. split; [|split].
      * destruct Hin as [->|Hin]; auto.
      * eapply Qle_trans; [|exact Hle]. by apply Qlt_le_weak.
      * intros y [<-|Hy]; auto.
    + assert (x <= m)%Q as Hmx.
      { apply Qnot_lt_le. intros Hlt. apply Qlt_bool_iff in Hlt. congruence. }
      split; [|split].
      * destruct Hin as [->|Hin]; auto.
      * done.
      * intros y [<-|Hy]; [|auto]. eapply Qle_trans; eauto.
Qed.

(** [list_min] is an element of the list, below all the others. *)
Lemma list_min_spec (l : list Q) :
  l <> [] -> In (list_min l) l /\ forall y, In y l -> (list_min l <= y)%Q.
Proof.
  destruct l as [|x l]; [done|]. intros _. unfold list_min.
  destruct (fold_min_spec l x) as (Hin & Hle & Hall). split.
  - destruct Hin as [->|Hin]; [by left|by right].
  - intros y [<-|Hy]; auto.
Qed.

Lemma list_max_spec (l : list Q) :
  l <> [] -> In (list_max l) l /\ forall y, In y l -> (y <= list_max l)%Q.
Proof.
  destruct l as [|x l]; [done|]. intros _. unfold list_max.
  destruct (fold_max_spec l x) as (Hin & Hle & Hall). split.
  - destruct Hin as [->|Hin]; [by left|by right].
  - intros y [<-|Hy]; auto.
Qed.

(** [average] times the number of elements is their sum. *)
Lemma average_spec (l : list Q) :
  l <> [] ->
  (average l * inject_Z (Z.of_nat (length l)) == list_sum l)%Q.
Proof.
  destruct l as [|x l]; [done|]. intros _. unfold average.
  set (n := inject_Z (Z.of_nat (length (x :: l)))).
  assert (~ n == 0)%Q as Hn.
  { unfold n, Qeq; simpl. lia. }
  field. exact Hn.
Qed.

Lemma fold_left_Qplus (l : list Q) (a : Q) :
  (fold_left Qplus l a == a + fold_left Qplus l 0)%Q.
Proof.
  revert a. induction l as [|x l IH]; simpl; intros a.
  - ring.
  - rewrite (IH (a + x)%Q), (IH (0 + x)%Q). ring.
Qed.

Lemma list_sum_cons (x : Q) (l : list Q) :
  (list_sum (x :: l) == x + list_sum l)%Q.
Proof.
  unfold list_sum; simpl. rewrite fold_left_Qplus. ring.
Qed.

Lemma numbers_ok (field : string) (l : list json) (qs : list Q) :
  numbers field l = inr qs ->
  qs = omap Py.as_number l /\ length qs = length l.
Proof.
  unfold numbers. generalize (PyError (TypeError field [JList l])) as err.
  intros err.
  destruct (mapM _ l) as [e|qs'] eqn:H; [discriminate|].
  intros [= <-]. revert qs' H.
  induction l as [|v l IH]; simpl; intros qs' H.
  - by injection H as <-.
  - destruct (Py.as_number v) as [q|]; [|discriminate]. simpl in H.
    destruct (mapM _ l) as [e|qs''] eqn:H'; [discriminate|].
    injection H as <-. destruct (IH qs'' eq_refl) as [-> Hlen].
    split; [done|]. simpl. f_equal. exact Hlen.
Qed.

Lemma positive_readings_ok (l : list json) (qs : list Q) :
  positive_readings l = inr qs ->
  qs = List.filter (Py.Qlt_bool 0) (omap Py.as_number l) /\
  length (omap Py.as_number l) = length l.
Proof.
  revert qs. induction l as [|v l IH]; simpl; intros qs H.
  - by injection H as <-.
  - unfold Py.positive in H.
    destruct (Py.as_number v) as [q|]; [|discriminate]. simpl in H.
    destruct (positive_readings l) as [e|qs'] eqn:H'; [discriminate|].
    simpl in H. injection H as <-.
    destruct (IH qs' eq_refl) as [-> Hlen]. split.
    + simpl. by destruct (Py.Qlt_bool 0 q).
    + simpl. f_equal. exact Hlen.
Qed.

(** What [summarize] returns, in terms of the numbers of the bucket. *)
Lemma summarize_ok (b : bucket) (s : summary) :
  summarize b = inr s ->
  length (omap Py.as_number (temps b)) = length (temps b) /\
  temp_min s = list_min (omap Py.as_number (temps b)) /\
  temp_max s = list_max (omap Py.as_number (temps b)) /\
  temp_avg s = average (omap Py.as_number (temps b)) /\
  length (omap Py.as_number (wind_degs b)) = length (wind_degs b) /\
  wind_deg_avg s =
    average (List.filter (Py.Qlt_bool 0) (omap Py.as_number (wind_degs b))).
Proof.
  unfold summarize. intros H.
  apply bind_inr in H as (ts & Hts & H).
  apply bind_inr in H as (hs & _ & H).
  apply bind_inr in H as (ws & _ & H).
  apply bind_inr in H as (cs & _ & H).
  apply bind_inr in H as (ps & _ & H).
  apply bind_inr in H as (dc & _ & H).
  apply bind_inr in H as (degs & Hdegs & H).
  injection H as <-; simpl.
  apply numbers_ok in Hts as [-> Hlen].
  apply positive_readings_ok in Hdegs as [-> Hlen'].
  done.
Qed.

(** ** From an event back to its day *)

Section Origin.

Context (X : externals).

Lemma mapM_elem {A B} (f : A -> result B) (l : list A) (bs : list B) (b : B) :
  mapM f l = inr bs -> b ∈ bs -> exists a, a ∈ l /\ f a = inr b.
Proof.
  intros H Hb. apply mapM_Forall2 in H.
  induction H as [|a b' l bs Hab _ IH].
  - by apply not_elem_of_nil in Hb.
  - apply elem_of_cons in Hb as [->|Hb].
    + exists a. split; [left|done].
    + destruct (IH Hb) as (a' & Ha' & Hf). exists a'. split; [by right|done].
Qed.

(** Each event of a successful call is the event of one of the kept days,
    computed from the bucket that holds the samples of that day. *)
Lemma event_origin (W : world) (query : string)
    (api_key : option string) (days : Z) (units : string)
    (evs : list Event) (log : list request) (ev : Event) :
  fetch_events X W query api_key days units = (inr evs, log) ->
  ev ∈ evs ->
  let k := dt_day (start ev) in
  let items := forecast_samples W log in
  exists s,
    day_samples items k <> [] /\
    summarize (bucket_of (day_samples items k)) = inr s /\
    make_event X (normalize_units units) (location ev) k s = inr ev.
Proof.
  intros H Hev k items. subst k items.
  apply fetch_events_samples in H as (city & daily & Hg & Hm).
  destruct (mapM_elem _ _ _ _ Hm Hev) as (k & _ & Hk).
  rewrite (day_event_start _ _ _ _ _ _ Hk); simpl.
  apply day_event_ok in Hk as (b & s & Hb & Hs & He).
  rewrite (group_lookup _ _ k Hg) in Hb.
  destruct (day_samples _ k) as [|f l] eqn:E; [discriminate|].
  injection Hb as <-. exists s. split; [done|]. split; [done|].
  pose proof (make_event_ok _ _ _ _ _ _ He) as (c & slug & _ & _ & _ & ->).
  done.
Qed.

End Origin.

(** ** Temperatures *)

Lemma prefix_app (p s : string) : String.prefix p (p +:+ s) = true.
Proof.
  induction p as [|c p IH]; simpl; [by destruct s|].
  by destruct (Ascii.ascii_dec c c).
Qed.

Lemma contains_unfold (sub s : string) :
  Str.contains sub s =
    String.prefix sub s ||
    match s with
    | EmptyString => false
    | String _ s' => Str.contains sub s'
    end.
Proof. by destruct s. Qed.

Lemma contains_here (sub s : string) : Str.contains sub (sub +:+ s) = true.
Proof. by rewrite contains_unfold, prefix_app. Qed.

Lemma contains_app (sub a s : string) :
  Str.contains sub s = true -> Str.contains sub (a +:+ s) = true.
Proof.
  intros H. induction a as [|c a IH]; [done|].
  change (String c a +:+ s) with (String c (a +:+ s)).
  rewrite contains_unfold, IH. apply orb_true_r.
Qed.

Section Temperatures.

Context (X : externals).


End Temperatures.


(** ** Missing readings *)

Lemma foldM_step {A B} (g : B -> A -> result B) (l : list A) (b r : B) (a : A) :
  foldM g l b = inr r -> a ∈ l -> exists b1 b2, g b1 a = inr b2.
Proof.
  revert b. induction l as [|x l IH]; simpl; intros b H Ha.
  - by apply not_elem_of_nil in Ha.
  - apply bind_inr in H as (b' & Hx & H).
    apply elem_of_cons in Ha as [->|Ha]; eauto.
Qed.

Lemma add_forecast_dated (daily daily' : gmap Z bucket) (f ts : json) :
  add_forecast daily f = inr daily' ->
  Py.get f "dt" (JInt 0) = inr ts -> Py.eq_zero ts = false ->
  exists k, sample_day f = Some k.
Proof.
  unfold add_forecast, sample_day. intros H Hts Hz. rewrite Hts in *.
  simpl in H. rewrite Hz in *.
  apply bind_inr in H as (k & Hk & _). rewrite Hk. eauto.
Qed.

Lemma lacks_reading (f : json) (group key : string) :
  lacks f group key -> reading f group key = JInt 0.
Proof.
  intros (d & -> & H). unfold reading; simpl.
  destruct (Py.dict_get d group) as [[| | | | | |g]|]; simpl; try done.
  by rewrite H.
Qed.

Lemma elem_of_day_samples (items : list json) (k : Z) (f : json) :
  f ∈ items -> sample_day f = Some k -> f ∈ day_samples items k.
Proof. intros Hf Hk. by apply list_elem_of_filter. Qed.

Lemma elem_of_map {A B} (g : A -> B) (l : list A) (a : A) :
  a ∈ l -> g a ∈ map g l.
Proof. intros H. apply list_elem_of_In, in_map. by apply list_elem_of_In. Qed.

Lemma zero_reading (items : list json) (k : Z) (f : json) (group key : string) :
  f ∈ items -> sample_day f = Some k -> lacks f group key ->
  JInt 0 ∈ map (fun f => reading f group key) (day_samples items k) /\
  In 0%Q (day_readings items k group key).
Proof.
  intros Hf Hk Hl.
  pose proof (elem_of_map (fun f => reading f group key) _ _
                (elem_of_day_samples _ _ _ Hf Hk)) as H.
  simpl in H. rewrite (lacks_reading _ _ _ Hl) in H. split; [done|].
  apply list_elem_of_In. unfold day_readings.
  apply list_elem_of_omap. by exists (JInt 0).
Qed.

Section Missing.

Context (X : externals).


End Missing.


(** ** Wind direction *)

Lemma list_sum_positive (l : list Q) (a : Q) :
  (0 <= a)%Q -> l <> [] -> (forall q, In q l -> (0 < q)%Q) ->
  (0 < fold_left Qplus l a)%Q.
Proof.
  revert a. induction l as [|x l IH]; [done|]. intros a Ha _ Hall. simpl.
  assert (0 < a + x)%Q as Hax.
  { assert (0 < x)%Q by (apply Hall; by left). lra. }
  destruct l as [|y l]; [done|].
  apply IH; [by apply Qlt_le_weak|done|]. intros q Hq. apply Hall. by right.
Qed.

Lemma average_positive (l : list Q) :
  l <> [] -> (forall q, In q l -> (0 < q)%Q) -> (0 < average l)%Q.
Proof.
  intros Hne Hall. destruct l as [|x l]; [done|]. unfold average.
  apply Qlt_shift_div_l.
  - unfold Qlt; simpl. lia.
  - rewrite Qmult_0_l. apply list_sum_positive; [apply Qle_refl|done|done].
Qed.

Lemma filter_positive (l : list Q) (q : Q) :
  In q (List.filter (Py.Qlt_bool 0) l) -> (0 < q)%Q.
Proof. intros H. apply filter_In in H as [_ H]. by apply Qlt_bool_iff. Qed.

Lemma filter_zero (l : list Q) :
  (forall q, In q l -> (q == 0)%Q) -> List.filter (Py.Qlt_bool 0) l = [].
Proof.
  induction l as [|x l IH]; [done|]. intros H. simpl.
  destruct (Py.Qlt_bool 0 x) eqn:E.
  - apply Qlt_bool_iff in E. rewrite (H x) in E by (by left).
    by apply Qlt_irrefl in E.
  - apply IH. intros q Hq. apply H. by right.
Qed.

(** On a number that is not negative, [int] is the floor. *)
Lemma trunc_floor (q : Q) : (0 <= q)%Q -> Py.trunc q = Qfloor q.
Proof.
  destruct q as [n d]. unfold Py.trunc, Qfloor, Qle; simpl. intros H.
  apply Z.quot_div_nonneg; lia.
Qed.

Lemma compass_point (deg : Q) : In (compass deg) directions.
Proof.
  unfold compass. apply nth_In.
  change (length directions) with 16%nat.
  pose proof (Z.mod_pos_bound
                (Qfloor ((deg + (1125 # 100)) / (225 # 10))%Q) 16) as H.
  lia.
Qed.

Section Wind.

Context (X : externals).

(** The six clauses that every description starts with. *)
Lemma desc_parts_split (units : string) (s : summary) :
  exists base,
    length base = 6%nat /\
    Forall (fun p => String.prefix "Wind Direction" p = false) base /\
    desc_parts units s =
      base ++
      (if Py.Qlt_bool 0 (wind_deg_avg s) then
         [ "Wind Direction: " +:+
             nth (Z.to_nat
                    (Py.trunc ((wind_deg_avg s + (1125 # 100)) / (225 # 10))%Q
                     mod 16)) directions "" ]
       else []).
Proof.
  eexists. split; [|split; [|reflexivity]]; [reflexivity|].
  repeat constructor.
Qed.


End Wind.



(** ** Identifiers *)

Lemma sample_day_range (f : json) (k : Z) :
  sample_day f = Some k -> Date.min_day <= k <= Date.max_day.
Proof.
  unfold sample_day, Date.utc_date.
  destruct (Py.get f "dt" (JInt 0)) as [|ts]; [discriminate|].
  destruct (Py.eq_zero ts); [discriminate|].
  destruct (Py.as_number ts) as [q|]; [|discriminate].
  destruct (_ && _) eqn:E; [|discriminate].
  intros [= <-]. apply andb_true_iff in E as [E1 E2]. lia.
Qed.

Lemma sorted_days_range (items : list json) (daily : gmap Z bucket)
    (days k : Z) :
  foldM add_forecast items ∅ = inr daily ->
  k ∈ sorted_days daily days -> Date.min_day <= k <= Date.max_day.
Proof.
  intros Hg Hk. apply sorted_days_elem in Hk.
  apply (group_keys _ _ _ Hg) in Hk.
  apply list_elem_of_omap in Hk as (f & _ & Hf).
  by apply sample_day_range in Hf.
Qed.

Lemma app_cancel (p a b : string) : p +:+ a = p +:+ b -> a = b.
Proof. induction p as [|c p IH]; simpl; [done|]. intros [= H]. auto. Qed.

Lemma uid_inj (slug a b : string) :
  "weather-" +:+ slug +:+ "-" +:+ a = "weather-" +:+ slug +:+ "-" +:+ b ->
  a = b.
Proof.
  intros E. apply (app_cancel "weather-") in E.
  apply (app_cancel slug) in E. by apply (app_cancel "-") in E.
Qed.

Section Identifiers.

Context (X : externals).

Lemma day_event_uid (units : string) (city : json) (daily : gmap Z bucket)
    (k : Z) (ev : Event) :
  day_event X units city daily k = inr ev ->
  exists slug,
    make_slug X city = inr slug /\ location ev = city /\ start ev = midnight k /\
    uid ev = "weather-" +:+ slug +:+ "-" +:+ Date.strftime_Ymd k.
Proof.
  intros H. apply day_event_ok in H as (b & s & _ & _ & H).
  apply make_event_ok in H as (c & slug & _ & Hslug & _ & ->).
  by exists slug.
Qed.

Lemma events_uid (units : string) (city : json) (daily : gmap Z bucket)
    (ks : list Z) (evs : list Event) (slug : string) :
  make_slug X city = inr slug ->
  mapM (day_event X units city daily) ks = inr evs ->
  map uid evs =
    map (fun k => "weather-" +:+ slug +:+ "-" +:+ Date.strftime_Ymd k) ks.
Proof.
  intros Hslug H. apply mapM_Forall2 in H.
  induction H as [|k ev ks evs Hk _ IH]; [done|].
  apply day_event_uid in Hk as (slug' & Hslug' & _ & _ & Hu).
  simpl. rewrite Hu, IH. congruence.
Qed.


End Identifiers.


(** * Further properties of [fetch_events] *)

Section Protocol.

Context (X : externals).


Lemma normalize_units_range (units : string) :
  normalize_units units = "metric" \/ normalize_units units = "imperial" \/
  normalize_units units = "kelvin".
Proof.
  unfold normalize_units.
  destruct (String.eqb (Str.lower units) "metric") eqn:E1;
    [apply String.eqb_eq in E1; auto|].
  destruct (String.eqb (Str.lower units) "imperial") eqn:E2;
    [apply String.eqb_eq in E2; auto|].
  destruct (String.eqb (Str.lower units) "kelvin") eqn:E3;
    [apply String.eqb_eq in E3; auto|]. auto.
Qed.

Lemma read_geocode_ok (loc : string) (gdata lat lon city : json) :
  read_geocode loc gdata = inr (lat, lon, city) ->
  Py.truthy gdata = true /\
  exists d,
    Py.first gdata = inr (JDict d) /\
    Py.dict_get d "lat" = Some lat /\ Py.dict_get d "lon" = Some lon /\
    city = default (JStr loc) (Py.dict_get d "name").
Proof.
  unfold read_geocode. intros H.
  apply bind_inr in H as (empty & He & H).
  destruct (Py.truthy gdata) eqn:Ht; simpl in He; [|by injection He as <-].
  split; [done|].
  destruct empty; [discriminate|].
  apply bind_inr in H as (first & Hf & H).
  apply bind_inr in H as (lat' & Hlat & H).
  apply bind_inr in H as (lon' & Hlon & H).
  apply bind_inr in H as (name & Hname & H).
  apply bind_inr in H as (country & _ & H).
  injection H as <- <- <-.
  destruct first as [| | | | | |d]; try discriminate.
  exists d. split; [done|]. unfold Py.getitem in Hlat, Hlon.
  destruct (Py.dict_get d "lat"); [|discriminate].
  destruct (Py.dict_get d "lon"); [|discriminate].
  injection Hlat as ->. injection Hlon as ->. by injection Hname as <-.
Qed.



(** An HTTP status of 401 or 429, on either request, ends the call with
    the error of that status and its fixed detail, whatever the body. *)
Theorem http_status_errors (W : world) (query : string)
    (api_key : option string) (days : Z) (units : string)
    (res : result (list Event)) (log : list request) (rq : request)
    (r : response) :
  fetch_events X W query api_key days units = (res, log) ->
  rq ∈ log ->
  requests_get W rq = Responded r ->
  (status_code r = 401 ->
   res = inl (HTTPException 401 (JStr "Invalid API key"))) /\
  (status_code r = 429 ->
   res = inl (HTTPException 429 (JStr "API rate limit exceeded"))).
Proof.
  intros H Hin Hq. split; intros Hs.
  - rewrite (fetch_events_response_error X _ _ _ _ _ _ _ _ _
               (HTTPException 401 (JStr "Invalid API key")) H Hin Hq); [done|].
    unfold read_response. by rewrite Hs.
  - rewrite (fetch_events_response_error X _ _ _ _ _ _ _ _ _
               (HTTPException 429 (JStr "API rate limit exceeded")) H Hin Hq);
      [done|].
    unfold read_response. by rewrite Hs.
Qed.

(** A response whose body is not JSON ends the call: with the 502 error
    that carries the message of the HTTP error when the status is a 4xx or
    a 5xx other than 401 and 429, with the 500 error "Invalid response
    from weather API" otherwise. *)
Theorem undecodable_body (W : world) (query : string)
    (api_key : option string) (days : Z) (units : string)
    (res : result (list Event)) (log : list request) (rq : request)
    (r : response) :
  fetch_events X W query api_key days units = (res, log) ->
  rq ∈ log ->
  requests_get W rq = Responded r ->
  json_body r = None ->
  status_code r <> 401 -> status_code r <> 429 ->
  res = inl (if (400 <=? status_code r) && (status_code r <? 600)
             then HTTPException 502
                    (JStr ("Weather API request failed: " +:+ http_error r))
             else HTTPException 500 (JStr "Invalid response from weather API")).
Proof.
  intros H Hin Hq Hb H1 H2.
  assert (read_response X r =
            inl (if (400 <=? status_code r) && (status_code r <? 600)
                 then RequestException (http_error r)
                 else HTTPException 500
                        (JStr "Invalid response from weather API"))) as Hr.
  { unfold read_response, raise_for_status.
    destruct (status_code r =? 401) eqn:E1; [lia|].
    destruct (status_code r =? 429) eqn:E2; [lia|].
    rewrite Hb. by destruct (_ && _). }
  rewrite (fetch_events_response_error X _ _ _ _ _ _ _ _ _ _ H Hin Hq Hr).
  by destruct (_ && _).
Qed.

(** A forecast that was read without error and is a dictionary without
    the key "list" ends the call with the 500 error "Invalid forecast
    response format". *)
Theorem forecast_without_list (W : world) (query : string)
    (api_key : option string) (days : Z) (units : string)
    (res : result (list Event)) (g f : request) (r : response)
    (d : list (string * json)) :
  fetch_events X W query api_key days units = (res, [g; f]) ->
  requests_get W f = Responded r ->
  read_response X r = inr (JDict d) ->
  Py.dict_get d "list" = None ->
  res = inl (HTTPException 500 (JStr "Invalid forecast response format")).
Proof.
  rewrite fetch_events_eq.
  destruct (validate W query api_key days units)
    as [e|[[[loc key] d0] u]]; [discriminate|]. simpl.
  destruct (requests_get W (geocode_request loc key)) as [msg|gr];
    [discriminate|].
  destruct (bind (read_response X gr) _) as [e|[[lat lon] city]];
    [discriminate|].
  destruct (requests_get W (forecast_request lat lon u key)) as [msg|fr] eqn:Hf;
    intros [= <- <- <-] Hq Hr Hl; rewrite Hf in Hq; [discriminate|].
  injection Hq as ->. rewrite Hr; simpl.
  unfold daily_events; simpl. by rewrite Hl.
Qed.

(** Asking for more than five days is asking for five, and asking for
    less than one is asking for one: the call made with a day count gives
    what the call made with that count clamped into 1..5 gives. *)
Theorem days_clamped (W : world) (query : string)
    (api_key : option string) (days : Z) (units : string) :
  1 <= clamp_days days <= 5 /\
  (5 <= days -> clamp_days days = 5) /\
  (days <= 1 -> clamp_days days = 1) /\
  (1 <= days <= 5 -> clamp_days days = days) /\
  fetch_events X W query api_key days units
    = fetch_events X W query api_key (clamp_days days) units.
Proof.
  pose proof (clamp_days_eq days) as E.
  split; [lia|]. split; [lia|]. split; [lia|]. split; [lia|].
  rewrite !fetch_events_eq. unfold validate.
  replace (clamp_days (clamp_days days)) with (clamp_days days); [done|].
  rewrite (clamp_days_eq (clamp_days days)). lia.
Qed.

End Protocol.



(** The forecast endpoint answers 429 after a geocoding that went well. *)
Lemma http_status_errors_witness :
  let limited := {| status_code := 429; json_body := Some (JDict []);
                    http_error := "429 Too Many Requests" |} in
  let W := Demo.world_of (Responded (Demo.ok Demo.geocode_body))
                         (Responded limited) in
  exists res log,
    fetch_events Demo.X W "Austin" None 5 "metric" = (res, log) /\
    res = inl (HTTPException 429 (JStr "API rate limit exceeded")).
Proof.
  intros limited W. eexists _, _. split; [vm_compute; reflexivity|].
  refine (proj2 (http_status_errors Demo.X W "Austin" None 5 "metric" _
            [geocode_request "Austin" "secret";
             forecast_request (JFloat (3027 # 100)) (JFloat (-9774 # 100))
               "metric" "secret"]
            (forecast_request (JFloat (3027 # 100)) (JFloat (-9774 # 100))
               "metric" "secret")
            limited _ _ _) _).
  - vm_compute; reflexivity.
  - right. left.
  - vm_compute; reflexivity.
  - reflexivity.
Defined.

(** The geocoder answers 503 with a page that is not JSON. *)
Lemma undecodable_body_witness :
  let down := {| status_code := 503; json_body := None;
                 http_error := "503 Server Error" |} in
  let W := Demo.world_of (Responded down) (Failed "unreachable") in
  exists res log,
    fetch_events Demo.X W "Austin" None 5 "metric" = (res, log) /\
    res = inl (HTTPException 502
                 (JStr ("Weather API request failed: " +:+ "503 Server Error"))).
Proof.
  intros down W. eexists _, _. split; [vm_compute; reflexivity|].
  apply (undecodable_body Demo.X W "Austin" None 5 "metric" _
           [geocode_request "Austin" "secret"]
           (geocode_request "Austin" "secret") down).
  - vm_compute; reflexivity.
  - left.
  - vm_compute; reflexivity.
  - reflexivity.
  - vm_compute; discriminate.
  - vm_compute; discriminate.
Defined.

(** The forecast endpoint answers an empty dictionary. *)
Lemma forecast_without_list_witness :
  let W := Demo.world_of (Responded (Demo.ok Demo.geocode_body))
                         (Responded (Demo.ok (JDict []))) in
  exists res log,
    fetch_events Demo.X W "Austin" None 5 "metric" = (res, log) /\
    res = inl (HTTPException 500 (JStr "Invalid forecast response format")).
Proof.
  intros W. eexists _, _. split; [vm_compute; reflexivity|].
  apply (forecast_without_list Demo.X W "Austin" None 5 "metric" _
           (geocode_request "Austin" "secret")
           (forecast_request (JFloat (3027 # 100)) (JFloat (-9774 # 100))
              "metric" "secret")
           (Demo.ok (JDict [])) []); vm_compute; reflexivity.
Defined.

Section Shape.

Context (X : externals).


Lemma add_forecast_skipped (daily : gmap Z bucket) (f : json) :
  skipped f = true -> add_forecast daily f = inr daily.
Proof.
  unfold skipped, add_forecast.
  destruct (Py.get f "dt" (JInt 0)) as [|ts]; [discriminate|]. simpl.
  by intros ->.
Qed.

Lemma foldM_skipped (items : list json) (daily : gmap Z bucket) :
  foldM add_forecast items daily =
    foldM add_forecast (List.filter (fun f => negb (skipped f)) items) daily.
Proof.
  revert daily. induction items as [|f items IH]; intros daily; [done|].
  cbn [foldM List.filter]. destruct (skipped f) eqn:E; cbn [negb].
  - rewrite (add_forecast_skipped _ _ E). cbn [bind]. apply IH.
  - cbn [foldM]. destruct (add_forecast daily f); cbn [bind]; [done|apply IH].
Qed.


Lemma summarize_condition (b : bucket) (s : summary) :
  summarize b = inr s ->
  weather_conditions b <> [] ->
  let w := nth (length (weather_conditions b) / 2)%nat (weather_conditions b)
               JNull in
  exists text,
    Py.get w "description" (JStr "") = inr (JStr text) /\
    condition_text s = Str.capitalize text /\
    Py.get w "main" (JStr "Unknown") = inr (condition s).
Proof.
  intros H Hne w. unfold summarize in H.
  apply bind_inr in H as (ts & _ & H).
  apply bind_inr in H as (hs & _ & H).
  apply bind_inr in H as (ws & _ & H).
  apply bind_inr in H as (cs & _ & H).
  apply bind_inr in H as (ps & _ & H).
  apply bind_inr in H as (dc & Hdc & H).
  apply bind_inr in H as (degs & _ & H).
  injection H as <-; simpl.
  destruct (weather_conditions b) as [|w0 l] eqn:E; [done|].
  apply bind_inr in Hdc as (text & Ht & Hdc).
  apply bind_inr in Hdc as (descr & Hdescr & Hdc).
  apply bind_inr in Hdc as (cond & Hcond & Hdc).
  injection Hdc as <-; simpl.
  destruct text as [| | | |t| |]; try discriminate.
  exists t. injection Hdescr as <-. done.
Qed.


Lemma get_error (obj : json) (key : string) (dflt : json) (e : exn) :
  Py.get obj key dflt = inl e -> exists pe, e = PyError pe.
Proof. destruct obj; simpl; intros [= <-]; eauto. Qed.

Lemma first_error (obj : json) (e : exn) :
  Py.first obj = inl e -> exists pe, e = PyError pe.
Proof.
  destruct obj as [| | | |s|l|d]; simpl; try (intros [= <-]; eauto).
  - destruct (Str.chars s); intros [= <-]; eauto.
  - destruct l; intros [= <-]; eauto.
Qed.

Lemma utc_date_error (ts : json) (e : exn) :
  Date.utc_date ts = inl e -> exists pe, e = PyError pe.
Proof.
  unfold Date.utc_date. destruct (Py.as_number ts); [|intros [= <-]; eauto].
  destruct (_ && _); intros [= <-]; eauto.
Qed.

(** The grouping loop raises nothing but interpreter errors. *)
Lemma add_forecast_error (daily : gmap Z bucket) (f : json) (e : exn) :
  add_forecast daily f = inl e -> exists pe, e = PyError pe.
Proof.
  unfold add_forecast. intros H.
  repeat match type of H with
    | bind ?m _ = inl _ =>
        apply bind_inl in H as [H|(? & _ & H)];
        [first [by apply get_error in H | by apply first_error in H
               | by apply utc_date_error in H]|]
    | (if ?c then _ else _) = inl _ => destruct c; [discriminate|]
    end.
  discriminate.
Qed.

Lemma foldM_add_forecast_error (items : list json) (daily : gmap Z bucket)
    (e : exn) :
  foldM add_forecast items daily = inl e -> exists pe, e = PyError pe.
Proof.
  revert daily. induction items as [|f items IH]; simpl; intros daily H;
    [discriminate|].
  apply bind_inl in H as [H|(m & _ & H)]; [by apply add_forecast_error in H|].
  by apply IH in H.
Qed.

Lemma foldM_add_forecast_non_object (items : list json) (daily : gmap Z bucket)
    (f : json) :
  f ∈ items -> (forall d, f <> JDict d) ->
  exists e, foldM add_forecast items daily = inl e.
Proof.
  intros Hf Hd. revert daily.
  induction items as [|x items IH]; intros daily;
    [by apply not_elem_of_nil in Hf|].
  simpl. apply elem_of_cons in Hf as [<-|Hf].
  - unfold add_forecast. destruct f; simpl; eauto. by destruct (Hd d).
  - destruct (add_forecast daily x); simpl; eauto.
Qed.

(** No partial result: when one item of the forecast list is not an
    object, the call returns no event at all and fails with the 500
    error, whatever the other items are. *)
Theorem non_object_sample_fails (W : world) (query : string)
    (api_key : option string) (days : Z) (units : string)
    (res : result (list Event)) (g f : request) (r : response)
    (d : list (string * json)) (items : list json) (item : json) :
  fetch_events X W query api_key days units = (res, [g; f]) ->
  requests_get W f = Responded r ->
  read_response X r = inr (JDict d) ->
  Py.dict_get d "list" = Some (JList items) ->
  item ∈ items -> (forall o, item <> JDict o) ->
  exists pe,
    res = inl (HTTPException 500
                 (JStr ("Failed to fetch weather events: " +:+ str_exc X pe))).
Proof.
  rewrite fetch_events_eq.
  destruct (validate W query api_key days units)
    as [e|[[[loc key] d0] u]]; [discriminate|]. simpl.
  destruct (requests_get W (geocode_request loc key)) as [msg|gr];
    [discriminate|].
  destruct (bind (read_response X gr) _) as [e|[[lat lon] city]];
    [discriminate|].
  destruct (requests_get W (forecast_request lat lon u key)) as [msg|fr] eqn:Hf;
    intros [= <- <- <-] Hq Hr Hl Hin Hno; rewrite Hf in Hq; [discriminate|].
  injection Hq as ->. rewrite Hr; simpl.
  unfold daily_events; simpl. rewrite Hl; simpl.
  destruct (foldM_add_forecast_non_object items ∅ item Hin Hno) as (e & He).
  rewrite He; simpl.
  apply foldM_add_forecast_error in He as (pe & ->). by exists pe.
Qed.

End Shape.



(** A forecast list with a string among its items. *)
Lemma non_object_sample_fails_witness :
  let items := [Demo.sample Demo.t0 10 90; JStr "oops"] in
  exists res log pe,
    fetch_events Demo.X (Demo.W items) "Austin" None 5 "metric" = (res, log) /\
    res = inl (HTTPException 500
                 (JStr ("Failed to fetch weather events: "
                          +:+ str_exc Demo.X pe))).
Proof.
  intros items.
  destruct (non_object_sample_fails Demo.X (Demo.W items) "Austin" None 5
              "metric"
              (fst (fetch_events Demo.X (Demo.W items) "Austin" None 5 "metric"))
              (geocode_request "Austin" "secret")
              (forecast_request (JFloat (3027 # 100)) (JFloat (-9774 # 100))
                 "metric" "secret")
              (Demo.ok (Demo.forecast_of items))
              [("cod", JStr "200"); ("message", JInt 0); ("list", JList items)]
              items (JStr "oops")) as (pe & Hpe).
  - vm_compute; reflexivity.
  - vm_compute; reflexivity.
  - vm_compute; reflexivity.
  - reflexivity.
  - right. left.
  - discriminate.
  - eexists _, _, pe. split; [vm_compute; reflexivity|].
    vm_compute in Hpe. vm_compute. exact Hpe.
Defined.

(** * [get_weather_emoji] *)

Lemma lower_char_idem (c : ascii) :
  Str.lower_char (Str.lower_char c) = Str.lower_char c.
Proof. destruct c as [[] [] [] [] [] [] [] []]; reflexivity. Qed.

Lemma lower_upper_char (c : ascii) :
  Str.lower_char (Str.upper_char c) = Str.lower_char c.
Proof. destruct c as [[] [] [] [] [] [] [] []]; reflexivity. Qed.

Lemma lower_idem (s : string) : Str.lower (Str.lower s) = Str.lower s.
Proof.
  induction s as [|c s IH]; simpl; [done|]. by rewrite lower_char_idem, IH.
Qed.

Lemma lower_upper (s : string) : Str.lower (upper s) = Str.lower s.
Proof.
  induction s as [|c s IH]; simpl; [done|]. by rewrite lower_upper_char, IH.
Qed.

(** The glyph depends on neither the case of the condition nor that of the
    description: putting both in lower case, or both in upper case, gives
    the same glyph; and no condition is left without a glyph. *)
Theorem emoji_case_insensitive (condition description : string) :
  get_weather_emoji (Str.lower condition) (Str.lower description)
    = get_weather_emoji condition description /\
  get_weather_emoji (upper condition) (upper description)
    = get_weather_emoji condition description /\
  get_weather_emoji condition description <> "".
Proof.
  split; [|split].
  - unfold get_weather_emoji. by rewrite !lower_idem.
  - unfold get_weather_emoji. by rewrite !lower_upper.
  - unfold get_weather_emoji.
    repeat match goal with
      | |- (if ?c then _ else _) <> _ => destruct c
      end; discriminate.
Qed.

(** * The route of an integration *)

Lemma ics_loop_map (events : list Event) (acc : list Ics.ics_event) :
  Routes.ics_loop events acc = acc ++ map Routes.ics_entry events.
Proof.
  revert acc. induction events as [|ev events IH]; intros acc; simpl.
  - by rewrite app_nil_r.
  - by rewrite IH, <- app_assoc.
Qed.

Section Route.

Context (X : externals).
Context (generate_ics : list Ics.ics_event -> string -> result string).

(** An error of [fetch_events] leaves the route as it is, without any
    calendar being generated; with [ics] false the events come back
    untouched; with [ics] true or absent the calendar is generated from
    one entry per event, in the order of the events, each with the uid,
    title, start, end, description, location and all-day flag of its event
    and the status CONFIRMED, and is returned as plain text. *)
Theorem wrapper_reply (integration_id integration_name : string)
    (ics : option bool) (fetched : result (list Event)) :
  let reply := Routes.fetch_events_wrapper X generate_ics integration_id
                 integration_name ics fetched in
  (forall e, fetched = inl e -> reply = inl e) /\
  (forall events,
     fetched = inr events -> ics = Some false ->
     reply = inr (Routes.Events events)) /\
  (forall events,
     fetched = inr events -> ics <> Some false ->
     let entries := map Routes.ics_entry events in
     reply =
       (ics_text <- generate_ics entries
                      (Routes.calendar_name X integration_id integration_name
                         events) ;;
        ret (Routes.PlainTextResponse ics_text "text/plain")) /\
     map Ics.uid entries = map uid events /\
     map Ics.name entries = map title events /\
     map Ics.begin entries = map start events /\
     Forall (fun entry => Ics.status entry = "CONFIRMED") entries).
Proof.
  intros reply. subst reply. unfold Routes.fetch_events_wrapper.
  split; [by intros e ->|]. split; [by intros events -> ->|].
  intros events -> Hics. simpl.
  assert (default true ics = true) as ->
    by (destruct ics as [[]|]; [done|by destruct Hics|done]).
  rewrite ics_loop_map; simpl.
  split; [done|]. rewrite !map_map; simpl.
  split; [done|]. split; [done|]. split; [done|].
  apply List.Forall_forall. intros entry Hin.
  apply in_map_iff in Hin as (ev & <- & _). done.
Qed.

(** The calendar served for the weather integration is named after the
    display city of the forecast: the name of the integration, " - " and
    the location that all the events of the call share, when the call
    gives at least one event and that location is not empty; the plain
    name of the integration when there is no event; and always the plain
    name for an integration of another id. *)
Theorem weather_calendar_name (W : world) (query : string)
    (api_key : option string) (days : Z) (units : string)
    (evs : list Event) (log : list request) (integration_name : string) :
  fetch_events X W query api_key days units = (inr evs, log) ->
  (evs = [] ->
   Routes.calendar_name X "daily-weather-forecast" integration_name evs
     = integration_name) /\
  (forall ev,
     ev ∈ evs -> Py.truthy (location ev) = true ->
     Routes.calendar_name X "daily-weather-forecast" integration_name evs
       = integration_name +:+ " - " +:+ format X (location ev)) /\
  (forall integration_id,
     integration_id <> "daily-weather-forecast" ->
     Routes.calendar_name X integration_id integration_name evs
       = integration_name).
Proof.
  intros H. split; [by intros ->|]. split.
  - intros ev Hev Ht.
    apply fetch_events_samples in H as (city & daily & _ & Hm).
    assert (forall ev', ev' ∈ evs -> location ev' = city) as Hcity.
    { intros ev' Hev'. destruct (mapM_elem _ _ _ _ Hm Hev') as (k & _ & Hk).
      by apply day_event_uid in Hk as (_ & _ & Hl & _). }
    destruct evs as [|ev0 evs']; [by apply not_elem_of_nil in Hev|].
    unfold Routes.calendar_name.
    rewrite (Hcity ev0) by left. rewrite (Hcity ev Hev) in *.
    by rewrite Ht.
  - intros integration_id Hid. unfold Routes.calendar_name.
    destruct evs as [|ev0 evs']; [done|].
    apply String.eqb_neq in Hid. by rewrite Hid.
Qed.

End Route.

(** The sample world, served under the name "Daily Weather Forecast". *)
Lemma weather_calendar_name_witness :
  exists ev log,
    fetch_events Demo.X (Demo.W Demo.three_samples) "Austin" None 5 "metric"
      = (inr [ev], log) /\
    location ev = JStr "Austin" /\
    Routes.calendar_name Demo.X "daily-weather-forecast"
      "Daily Weather Forecast" [ev]
      = "Daily Weather Forecast" +:+ " - " +:+ format Demo.X (location ev).
Proof.
  eexists _, _. split; [vm_compute; reflexivity|]. split; [reflexivity|].
  match goal with
  | |- Routes.calendar_name _ _ _ [?ev] = _ =>
      apply (proj1 (proj2 (weather_calendar_name Demo.X
               (Demo.W Demo.three_samples) "Austin" None 5 "metric" [ev]
               [geocode_request "Austin" "secret";
                forecast_request (JFloat (3027 # 100)) (JFloat (-9774 # 100))
                  "metric" "secret"]
               "Daily Weather Forecast" ltac:(vm_compute; reflexivity)))
               ev ltac:(left) ltac:(reflexivity))
  end.
Defined.

(** * The allowed origins and the route prefixes *)

(** [c] occurs in [s]. *)
Lemma contains_char (c : ascii) (s : string) :
  Str.contains (String c "") s = true <->
  exists a b, s = a +:+ String c b.
Proof.
  induction s as [|x s IH].
  - simpl. split; [discriminate|]. intros (a & b & H). by destruct a.
  - rewrite contains_unfold. simpl.
    destruct (Ascii.ascii_dec c x) as [->|Hne].
    + assert (String.prefix "" s = true) as -> by (by destruct s).
      simpl. split; [|done]. intros _. by exists "", s.
    + simpl. rewrite IH. split.
      * intros (a & b & ->). by exists (String x a), b.
      * intros (a & b & H). destruct a as [|y a]; simpl in H.
        -- injection H as -> _. done.
        -- injection H as _ ->. eauto.
Qed.

Lemma no_char_cons (c x : ascii) (s : string) :
  Str.contains (String c "") (String x s) = false <->
  x <> c /\ Str.contains (String c "") s = false.
Proof.
  rewrite contains_unfold. simpl.
  destruct (Ascii.ascii_dec c x) as [->|Hne].
  - assert (String.prefix "" s = true) as -> by (by destruct s).
    simpl. split; [discriminate|]. by intros [? _].
  - simpl. split; [by intros ->|by intros [_ ->]].
Qed.

Lemma split_no_sep (sep : ascii) (s piece : string) :
  In piece (Main.split sep s) -> Str.contains (String sep "") piece = false.
Proof.
  revert piece. induction s as [|c s IH]; simpl; intros piece.
  - by intros [<-|[]].
  - destruct (Ascii.eqb c sep) eqn:E.
    + intros [<-|H]; [done|auto].
    + apply Ascii.eqb_neq in E.
      destruct (Main.split sep s) as [|p ps] eqn:Es.
      * intros [<-|[]]. by apply no_char_cons.
      * intros [<-|H]; [|apply IH; by right].
        apply no_char_cons. split; [done|]. apply IH. by left.
Qed.

Lemma lstrip_no_char (c : ascii) (s : string) :
  Str.contains (String c "") s = false ->
  Str.contains (String c "") (Str.lstrip s) = false.
Proof.
  induction s as [|x s IH]; simpl; [done|]. intros H.
  destruct (Str.is_space x); [|done].
  apply IH. by apply no_char_cons in H as [_ H].
Qed.

Lemma rstrip_no_char (c : ascii) (s : string) :
  Str.contains (String c "") s = false ->
  Str.contains (String c "") (Str.rstrip s) = false.
Proof.
  induction s as [|x s IH]; [done|]. intros H.
  apply no_char_cons in H as [Hx H]. specialize (IH H).
  cbn [Str.rstrip]. destruct (Str.rstrip s) as [|y t].
  - destruct (Str.is_space x); [done|]. by apply no_char_cons.
  - by apply no_char_cons.
Qed.

Lemma rstrip_idem (s : string) : Str.rstrip (Str.rstrip s) = Str.rstrip s.
Proof.
  induction s as [|x s IH]; [done|]. cbn [Str.rstrip].
  destruct (Str.rstrip s) as [|y t] eqn:E.
  - destruct (Str.is_space x) eqn:Ex; [done|]. cbn [Str.rstrip]. by rewrite Ex.
  - cbn [Str.rstrip] in *. by rewrite IH.
Qed.

Lemma lstrip_rstrip_lstrip (s : string) :
  Str.lstrip (Str.rstrip (Str.lstrip s)) = Str.rstrip (Str.lstrip s).
Proof.
  induction s as [|x s IH]; [done|]. cbn [Str.lstrip].
  destruct (Str.is_space x) eqn:Ex; [done|].
  cbn [Str.rstrip]. destruct (Str.rstrip s) as [|y t].
  - rewrite Ex. cbn [Str.lstrip]. by rewrite Ex.
  - cbn [Str.lstrip]. by rewrite Ex.
Qed.

Lemma strip_idem (s : string) : Str.strip (Str.strip s) = Str.strip s.
Proof.
  unfold Str.strip. by rewrite lstrip_rstrip_lstrip, rstrip_idem.
Qed.


Lemma replace_length (old new : ascii) (s : string) :
  String.length (Main.replace old new s) = String.length s.
Proof. induction s as [|c s IH]; simpl; [done|]. by rewrite IH. Qed.

Lemma replace_no_old (old new : ascii) (s : string) :
  new <> old -> Str.contains (String old "") (Main.replace old new s) = false.
Proof.
  intros Hne. induction s as [|c s IH]; [done|]. cbn [Main.replace].
  apply no_char_cons. split; [|done].
  destruct (Ascii.eqb c old) eqn:E; [done|]. by apply Ascii.eqb_neq in E.
Qed.

Lemma replace_absent (old new : ascii) (s : string) :
  Str.contains (String old "") s = false -> Main.replace old new s = s.
Proof.
  induction s as [|c s IH]; [done|]. intros H.
  apply no_char_cons in H as [Hc H]. cbn [Main.replace].
  apply Ascii.eqb_neq in Hc. by rewrite Hc, IH.
Qed.

(** The prefix of an integration is a slash and its id with every
    underscore turned into a hyphen: it has one character more than the id,
    holds no underscore, and is the id behind a slash when the id has no
    underscore; so two ids that differ only by underscores against hyphens
    are mounted on the same prefix. *)
Theorem prefix_shape (integration_id : string) :
  String.length (Main.prefix integration_id)
    = S (String.length integration_id) /\
  Str.contains "_" (Main.prefix integration_id) = false /\
  (Str.contains "_" integration_id = false ->
   Main.prefix integration_id = "/" +:+ integration_id) /\
  Main.prefix (Main.replace "_" "-" integration_id) = Main.prefix integration_id.
Proof.
  unfold Main.prefix. split; [|split; [|split]].
  - rewrite <- (replace_length "_" "-" integration_id). reflexivity.
  - change ("/" +:+ Main.replace "_" "-" integration_id)
      with (String "/" (Main.replace "_" "-" integration_id)).
    apply no_char_cons. split; [done|]. by apply replace_no_old.
  - intros H. by rewrite replace_absent.
  - f_equal. apply replace_absent. by apply replace_no_old.
Qed.

(** * Well-formed forecasts *)

Lemma mapM_success {A B} (f : A -> result B) (l : list A) :
  (forall a, a ∈ l -> exists b, f a = inr b) -> exists bs, mapM f l = inr bs.
Proof.
  induction l as [|a l IH]; intros H; [by exists []|].
  destruct (H a) as (b & Hb); [left|].
  destruct IH as (bs & Hbs); [intros a' Ha'; apply H; by right|].
  exists (b :: bs). simpl. by rewrite Hb, Hbs.
Qed.

Lemma foldM_success {A B} (g : B -> A -> result B) (l : list A) (b : B) :
  (forall a b', a ∈ l -> exists b'', g b' a = inr b'') ->
  exists r, foldM g l b = inr r.
Proof.
  revert b. induction l as [|a l IH]; intros b H; [by exists b|].
  destruct (H a b) as (b1 & Hb1); [left|].
  destruct (IH b1) as (r & Hr); [intros a' b' Ha'; apply H; by right|].
  exists r. simpl. by rewrite Hb1.
Qed.

Lemma aggregable_not_skipped (f : json) : aggregable f = true -> skipped f = false.
Proof.
  unfold aggregable, skipped, sample_day. intros H.
  repeat (apply andb_true_iff in H as [H _]).
  destruct (Py.get f "dt" (JInt 0)); [discriminate|].
  by destruct (Py.eq_zero _).
Qed.

Lemma add_forecast_success (daily : gmap Z bucket) (f : json) :
  well_formed_sample f = true -> exists daily', add_forecast daily f = inr daily'.
Proof.
  unfold well_formed_sample. intros H. apply orb_true_iff in H as [H|H].
  { rewrite add_forecast_skipped; eauto. }
  unfold aggregable in H.
  repeat match type of H with
    | _ && _ = true => let H' := fresh "Hw" in apply andb_true_iff in H as [H H']
    end.
  unfold add_forecast. unfold sample_day in H.
  destruct (Py.get f "dt" (JInt 0)) as [|ts]; [discriminate|]. simpl.
  destruct (Py.eq_zero ts); [eauto|].
  destruct (Date.utc_date ts) as [|k]; [discriminate|]. simpl.
  unfold dict_group in *.
  destruct (Py.get f "main" (JDict [])) as [|[| | | | | |g1]]; try discriminate.
  destruct (Py.get f "wind" (JDict [])) as [|[| | | | | |g2]]; try discriminate.
  destruct (Py.get f "clouds" (JDict [])) as [|[| | | | | |g3]]; try discriminate.
  simpl.
  destruct (Py.get f "weather" (JList [JDict []])) as [|l]; [discriminate|].
  simpl in *. destruct (Py.first l); [discriminate|]. simpl. eauto.
Qed.

Lemma numbers_success (field : string) (l : list json) :
  forallb numeric l = true -> exists qs, numbers field l = inr qs.
Proof.
  unfold numbers. generalize (PyError (TypeError field [JList l])) as err.
  intros err H.
  assert (exists qs, mapM (fun v => match Py.as_number v with
                                    | Some q => ret q
                                    | None => raise err
                                    end) l = inr qs) as (qs & ->).
  { apply mapM_success. intros v Hv.
    rewrite forallb_forall in H. apply list_elem_of_In, H in Hv.
    unfold numeric in Hv. destruct (Py.as_number v); [eauto|discriminate]. }
  eauto.
Qed.

Lemma positive_readings_success (l : list json) :
  forallb numeric l = true -> exists qs, positive_readings l = inr qs.
Proof.
  induction l as [|v l IH]; [by exists []|]. simpl. intros H.
  apply andb_true_iff in H as [Hv H]. destruct (IH H) as (qs & Hqs).
  unfold numeric in Hv. unfold Py.positive.
  destruct (Py.as_number v); [|discriminate]. simpl. rewrite Hqs. simpl. eauto.
Qed.

Lemma readings_numeric (l : list json) (group key : string) :
  (forall f, f ∈ l -> numeric (reading f group key) = true) ->
  forallb numeric (map (fun f => reading f group key) l) = true.
Proof.
  intros H. apply forallb_forall. intros v Hv.
  apply in_map_iff in Hv as (f & <- & Hf). apply H. by apply list_elem_of_In.
Qed.

Lemma readable_condition_get (w : json) :
  readable_condition w = true ->
  exists text main,
    Py.get w "description" (JStr "") = inr (JStr text) /\
    Py.get w "main" (JStr "Unknown") = inr (JStr main).
Proof.
  destruct w as [| | | | | |d]; try discriminate. simpl. intros H.
  apply andb_true_iff in H as [H1 H2].
  destruct (Py.dict_get d "description") as [[| | | |t| |]|]; try discriminate;
    destruct (Py.dict_get d "main") as [[| | | |m| |]|]; try discriminate;
    simpl; eauto.
Qed.

Lemma aggregable_condition (f : json) :
  aggregable f = true -> readable_condition (sample_weather f) = true.
Proof.
  unfold aggregable, sample_weather. intros H.
  apply andb_true_iff in H as [_ H].
  by destruct (bind (Py.get f "weather" (JList [JDict []])) _).
Qed.

(** The figures of a day of aggregable samples can be computed, and the
    condition they carry is a string. *)
Lemma summarize_success (l : list json) :
  l <> [] -> (forall f, f ∈ l -> aggregable f = true) ->
  exists s c, summarize (bucket_of l) = inr s /\ condition s = JStr c.
Proof.
  intros Hne Hall. unfold summarize. cbn [temps humidities wind_speeds clouds
    pressures wind_degs weather_conditions bucket_of].
  assert (forall group key,
            (forall f, f ∈ l -> numeric (reading f group key) = true) ->
            forall field, exists qs,
              numbers field (map (fun f => reading f group key) l) = inr qs)
    as Hnum.
  { intros group key H field. by apply numbers_success, readings_numeric. }
  assert (forall f, f ∈ l ->
            numeric (reading f "main" "temp") = true /\
            numeric (reading f "main" "humidity") = true /\
            numeric (reading f "main" "pressure") = true /\
            numeric (reading f "wind" "speed") = true /\
            numeric (reading f "wind" "deg") = true /\
            numeric (reading f "clouds" "all") = true) as Hr.
  { intros f Hf. specialize (Hall f Hf). unfold aggregable in Hall.
    repeat match type of Hall with
      | _ && _ = true =>
          let H' := fresh "Hw" in apply andb_true_iff in Hall as [Hall H']
      end. done. }
  destruct (Hnum "main" "temp" (fun f Hf => proj1 (Hr f Hf)) "temps")
    as (ts & ->).
  destruct (Hnum "main" "humidity"
              (fun f Hf => proj1 (proj2 (Hr f Hf))) "humidities") as (hs & ->).
  destruct (Hnum "wind" "speed"
              (fun f Hf => proj1 (proj2 (proj2 (proj2 (Hr f Hf)))))
              "wind_speeds") as (ws & ->).
  destruct (Hnum "clouds" "all"
              (fun f Hf => proj2 (proj2 (proj2 (proj2 (proj2 (Hr f Hf))))))
              "clouds") as (cs & ->).
  destruct (Hnum "main" "pressure"
              (fun f Hf => proj1 (proj2 (proj2 (Hr f Hf)))) "pressures")
    as (ps & ->).
  destruct (positive_readings_success
              (map (fun f => reading f "wind" "deg") l)) as (degs & Hdegs).
  { apply readings_numeric. intros f Hf. apply (Hr f Hf). }
  cbn [bind]. rewrite Hdegs.
  destruct l as [|f0 l'] eqn:El; [done|]. rewrite <- El in *.
  assert (map sample_weather l <> []) as Hw by (by rewrite El).
  destruct (map sample_weather l) as [|w0 wl] eqn:Ew; [done|].
  rewrite <- Ew.
  set (mid := nth (length (map sample_weather l) / 2)%nat
                  (map sample_weather l) JNull).
  assert (readable_condition mid = true) as Hmid.
  { unfold mid. rewrite length_map.
    change JNull with (sample_weather JNull). rewrite map_nth.
    apply aggregable_condition, Hall, list_elem_of_In, nth_In.
    apply Nat.div_lt; [rewrite El; simpl; lia|lia]. }
  apply readable_condition_get in Hmid as (text & main & Ht & Hm).
  rewrite Ht. cbn [bind]. rewrite Hm. cbn [bind ret].
  eexists _, main. split; [reflexivity|done].
Qed.

Section WellFormed.

Context (X : externals).


End WellFormed.

